(** * Gogs webhook: event dispatch and message formatting

    A shallow embedding of [zerver/webhooks/gogs/view.py].  Payloads are
    JSON trees read through the [WildValue] accessors, every extraction
    either yields a typed scalar or raises, and the handlers thread those
    failures through an error monad in the order in which the Python code
    evaluates its sub-expressions.  The shared helpers of
    [zerver.lib.webhooks.git] (topic templates, message renderers and the
    branch filter) are not part of this file of the repository: they are
    collected in the record [GitLib] and every definition that calls them
    takes that record as a parameter. *)

From Stdlib Require Import String Ascii List ZArith QArith Bool Lia DecimalString.
From Stdlib Require Decimal DecimalPos DecimalZ.
Import ListNotations.
Local Open Scope string_scope.
Local Open Scope Z_scope.

(** ** Exceptions and the error monad *)

Inductive exn : Type :=
| ValidationError
| IndexError
| MissingHTTPEventHeaderError (header : string)
| UnsupportedWebhookEventTypeError (event : string).

Inductive result (A : Type) : Type :=
| Ok (a : A)
| Raise (e : exn).

Arguments Ok {A} a.
Arguments Raise {A} e.

Definition bind {A B : Type} (m : result A) (k : A -> result B) : result B :=
  match m with
  | Ok a => k a
  | Raise e => Raise e
  end.

Definition fmap {A B : Type} (f : A -> B) (m : result A) : result B :=
  bind m (fun a => Ok (f a)).

Notation "x <- m ;; k" := (bind m (fun x => k))
  (at level 61, m at next level, right associativity).

Notation "m >>= k" := (bind m k) (at level 50, left associativity).

(** ** Python strings

    A character is a code point below 256; [bool(s)], [str.replace],
    [str.split()] without arguments and [str(int)] are the only string
    operations the webhook uses. *)

Module PyStr.

Definition truthy (s : string) : bool :=
  match s with
  | EmptyString => false
  | String _ _ => true
  end.

(** [s.replace(old, new)] for a non-empty [old]: occurrences are taken
    left to right and do not overlap.  [skip] counts the characters of a
    match that are still to be dropped. *)
Fixpoint replace_from (old new : string) (skip : nat) (s : string) : string :=
  match s with
  | EmptyString => EmptyString
  | String c rest =>
      match skip with
      | S k => replace_from old new k rest
      | O =>
          if prefix old s
          then new ++ replace_from old new (Nat.pred (String.length old)) rest
          else String c (replace_from old new O rest)
      end
  end.

Definition replace (old new s : string) : string :=
  replace_from old new O s.

(** [str.isspace] on the code points below 256. *)
Definition is_space (c : ascii) : bool :=
  let n := nat_of_ascii c in
  (((9 <=? n) && (n <=? 13)) || ((28 <=? n) && (n <=? 32))
   || (n =? 133) || (n =? 160))%nat.

(** [s.split()]: maximal runs of non-space characters, in order. *)
Fixpoint split_from (word : string) (s : string) : list string :=
  match s with
  | EmptyString =>
      match word with
      | EmptyString => []
      | _ => [word]
      end
  | String c rest =>
      if is_space c then
        match word with
        | EmptyString => split_from EmptyString rest
        | _ => word :: split_from EmptyString rest
        end
      else split_from (word ++ String c EmptyString) rest
  end.

Definition split (s : string) : list string := split_from EmptyString s.

(** [l[0]] on a list. *)
Definition first {A : Type} (l : list A) : result A :=
  match l with
  | [] => Raise IndexError
  | x :: _ => Ok x
  end.

(** [str(n)] for an integer. *)
Definition of_int (n : Z) : string := NilZero.string_of_int (Z.to_int n).

Fixpoint all_chars (f : ascii -> bool) (s : string) : bool :=
  match s with
  | EmptyString => true
  | String c rest => f c && all_chars f rest
  end.

Definition all_space (s : string) : bool := all_chars is_space s.

Definition no_space (s : string) : bool := all_chars (fun c => negb (is_space c)) s.

End PyStr.

(** ** Payloads *)

Set Warnings "-register-all".

(** A parsed JSON body.  An object is the list of its items, keys
    distinct; a lookup takes the first item with the key. *)
Inductive json : Type :=
| JNull
| JBool (b : bool)
| JInt (z : Z)
| JFloat (q : Q)
| JStr (s : string)
| JList (l : list json)
| JDict (d : list (string * json)).

Fixpoint assoc {A : Type} (key : string) (d : list (string * A)) : option A :=
  match d with
  | [] => None
  | (k, v) :: rest => if String.eqb k key then Some v else assoc key rest
  end.

(** Modelled from the spec: the field extractor of [zerver.lib.validator]
    ([WildValue], [check_string], [check_int], [check_bool]), which is not
    among the sources.  A step into a value that is not an object, a
    missing key, iteration over a value that is not an array and a scalar
    of the wrong type all raise the same schema violation; an extraction
    never substitutes a default.  The truth value of a wrapped value is
    Python's truth value of the JSON value it wraps. *)
Module WildValue.

Definition t : Type := json.

Definition getitem (v : t) (key : string) : result t :=
  match v with
  | JDict d =>
      match assoc key d with
      | Some x => Ok x
      | None => Raise ValidationError
      end
  | _ => Raise ValidationError
  end.

Definition iter (v : t) : result (list t) :=
  match v with
  | JList l => Ok l
  | _ => Raise ValidationError
  end.

Definition truthy (v : t) : bool :=
  match v with
  | JNull => false
  | JBool b => b
  | JInt z => negb (z =? 0)
  | JFloat q => negb (Qeq_bool q 0)
  | JStr s => PyStr.truthy s
  | JList l => match l with [] => false | _ => true end
  | JDict d => match d with [] => false | _ => true end
  end.

Definition check_string (v : t) : result string :=
  match v with
  | JStr s => Ok s
  | _ => Raise ValidationError
  end.

Definition check_int (v : t) : result Z :=
  match v with
  | JInt z => Ok z
  | _ => Raise ValidationError
  end.

Definition check_bool (v : t) : result bool :=
  match v with
  | JBool b => Ok b
  | _ => Raise ValidationError
  end.

Definition tame {A : Type} (validator : t -> result A) (v : result t) : result A :=
  v >>= validator.

End WildValue.

Import WildValue.

(** [p @ "k"] is [p["k"]] on a value that may already have failed. *)
Definition sub (v : result json) (key : string) : result json :=
  v >>= (fun x => getitem x key).

Notation "v @ k" := (sub v k) (at level 40, left associativity).

Definition wild (p : json) : result json := Ok p.

(** ** Calls into [zerver.lib.webhooks.git]

    Each renderer is called with keyword arguments; a record holds the
    arguments of one call.  A keyword the call leaves out reads [None]. *)

Record CommitSummary : Type := {
  name : string;
  sha : string;
  url : string;
  message : string
}.

Module PushCommits.
Record kwargs : Type := {
  user_name : string;
  compare_url : string;
  branch_name : string;
  commits_data : list CommitSummary
}.
End PushCommits.

Module CreateBranch.
Record kwargs : Type := {
  user_name : string;
  url : string;
  branch_name : string
}.
End CreateBranch.

Module PullRequest.
Record kwargs : Type := {
  user_name : string;
  action : string;
  url : string;
  number : option Z;
  target_branch : option string;
  base_branch : option string;
  message : option string;
  type : option string;
  title : option string;
  assignee_updated : option string
}.
End PullRequest.

Module Issue.
Record kwargs : Type := {
  user_name : string;
  action : string;
  url : string;
  number : option Z;
  message : option string;
  assignee : option string;
  title : option string;
  assignee_updated : option string
}.
End Issue.

Module Release.
Record kwargs : Type := {
  user_name : string;
  action : string;
  tagname : string;
  release_name : string;
  url : string
}.
End Release.

(** The names [view.py] imports from [zerver.lib.webhooks.git].  A topic
    template is taken as the function [TEMPLATE.format(...)] of its
    keyword arguments. *)
Record GitLib : Type := {
  TOPIC_WITH_BRANCH_TEMPLATE : string -> string -> string;
  TOPIC_WITH_PR_OR_ISSUE_INFO_TEMPLATE : string -> string -> Z -> string -> string;
  TOPIC_WITH_RELEASE_TEMPLATE : string -> string -> string -> string;
  get_create_branch_event_message : CreateBranch.kwargs -> string;
  get_issue_event_message : Issue.kwargs -> string;
  get_pull_request_event_message : PullRequest.kwargs -> string;
  get_push_commits_event_message : PushCommits.kwargs -> string;
  get_release_event_message : Release.kwargs -> string;
  is_branch_name_notifiable : string -> option string -> bool
}.

(** ** Formatters *)

(** The request-scoped context the dispatcher hands to a handler. *)
Module Helper.
Record t : Type := {
  payload : json;
  branches : option string;
  user_specified_topic : option string;
  repo : string;
  event_type : string;
  format_pull_request_event : json -> bool -> result string
}.
End Helper.

Definition get_issue_url (repo_url : string) (issue_nr : Z) : string :=
  repo_url ++ "/issues/" ++ PyStr.of_int issue_nr.

(** One element of the comprehension of
    [_transform_commits_list_to_common_format]: the entries of the dict
    display are evaluated top to bottom, and [or] reads the full name only
    when the username is empty. *)
Definition transform_commit (commit : json) : result CommitSummary :=
  username <- tame check_string (wild commit @ "author" @ "username") ;;
  name <- (if PyStr.truthy username then Ok username
           else full <- tame check_string (wild commit @ "author" @ "name") ;;
                PyStr.first (PyStr.split full)) ;;
  sha <- tame check_string (wild commit @ "id") ;;
  url <- tame check_string (wild commit @ "url") ;;
  message <- tame check_string (wild commit @ "message") ;;
  Ok {| name := name; sha := sha; url := url; message := message |}.

Fixpoint transform_commits (commits : list json) : result (list CommitSummary) :=
  match commits with
  | [] => Ok []
  | commit :: rest =>
      summary <- transform_commit commit ;;
      summaries <- transform_commits rest ;;
      Ok (summary :: summaries)
  end.

Definition _transform_commits_list_to_common_format (commits : result json)
  : result (list CommitSummary) :=
  commits >>= iter >>= transform_commits.

Definition format_push_event_kwargs (payload : json) : result PushCommits.kwargs :=
  user_name <- tame check_string (wild payload @ "sender" @ "username") ;;
  compare_url <- tame check_string (wild payload @ "compare_url") ;;
  ref <- tame check_string (wild payload @ "ref") ;;
  let branch_name := PyStr.replace "refs/heads/" "" ref in
  commits_data <- _transform_commits_list_to_common_format (wild payload @ "commits") ;;
  Ok {| PushCommits.user_name := user_name;
        PushCommits.compare_url := compare_url;
        PushCommits.branch_name := branch_name;
        PushCommits.commits_data := commits_data |}.

Definition format_new_branch_event_kwargs (payload : json) : result CreateBranch.kwargs :=
  branch_name <- tame check_string (wild payload @ "ref") ;;
  html_url <- tame check_string (wild payload @ "repository" @ "html_url") ;;
  let url := html_url ++ "/src/" ++ branch_name in
  user_name <- tame check_string (wild payload @ "sender" @ "username") ;;
  Ok {| CreateBranch.user_name := user_name;
        CreateBranch.url := url;
        CreateBranch.branch_name := branch_name |}.

(** The conditional expression of lines 108-112: [payload["action"]] is
    looked up (and may be missing) before its truth value is taken, the
    assignee is looked up only when the action is truthy, and the login is
    read only when both are truthy. *)
Definition pull_request_assignee (payload : json) : result (option string) :=
  action <- wild payload @ "action" ;;
  if truthy action then
    assignee <- wild payload @ "pull_request" @ "assignee" ;;
    if truthy assignee then
      login <- tame check_string (wild payload @ "pull_request" @ "assignee" @ "login") ;;
      Ok (Some login)
    else Ok None
  else Ok None.

Definition format_pull_request_event_kwargs (payload : json) (include_title : bool)
  : result PullRequest.kwargs :=
  merged <- tame check_bool (wild payload @ "pull_request" @ "merged") ;;
  who <- (if merged : bool then
            user_name <- tame check_string
                           (wild payload @ "pull_request" @ "merged_by" @ "username") ;;
            Ok (user_name, "merged")
          else
            user_name <- tame check_string
                           (wild payload @ "pull_request" @ "user" @ "username") ;;
            action <- tame check_string (wild payload @ "action") ;;
            Ok (user_name, action)) ;;
  let '(user_name, action) := who in
  url <- tame check_string (wild payload @ "pull_request" @ "html_url") ;;
  number <- tame check_int (wild payload @ "pull_request" @ "number") ;;
  heads <- (if String.eqb action "edited" then Ok (None, None)
            else
              target_branch <- tame check_string
                                 (wild payload @ "pull_request" @ "head_branch") ;;
              base_branch <- tame check_string
                               (wild payload @ "pull_request" @ "base_branch") ;;
              Ok (Some target_branch, Some base_branch)) ;;
  let '(target_branch, base_branch) := heads in
  title <- (if include_title
            then fmap Some (tame check_string (wild payload @ "pull_request" @ "title"))
            else Ok None) ;;
  stringified_assignee <- pull_request_assignee payload ;;
  Ok {| PullRequest.user_name := user_name;
        PullRequest.action := action;
        PullRequest.url := url;
        PullRequest.number := Some number;
        PullRequest.target_branch := target_branch;
        PullRequest.base_branch := base_branch;
        PullRequest.message := None;
        PullRequest.type := None;
        PullRequest.title := title;
        PullRequest.assignee_updated := stringified_assignee |}.

Definition format_issues_event_kwargs (payload : json) (include_title : bool)
  : result Issue.kwargs :=
  issue_nr <- tame check_int (wild payload @ "issue" @ "number") ;;
  assignee <- wild payload @ "issue" @ "assignee" ;;
  stringified_assignee <- (if truthy assignee
                           then fmap Some (tame check_string (wild assignee @ "login"))
                           else Ok None) ;;
  action <- tame check_string (wild payload @ "action") ;;
  user_name <- tame check_string (wild payload @ "sender" @ "login") ;;
  action' <- tame check_string (wild payload @ "action") ;;
  html_url <- tame check_string (wild payload @ "repository" @ "html_url") ;;
  message <- tame check_string (wild payload @ "issue" @ "body") ;;
  title <- (if include_title
            then fmap Some (tame check_string (wild payload @ "issue" @ "title"))
            else Ok None) ;;
  Ok {| Issue.user_name := user_name;
        Issue.action := action';
        Issue.url := get_issue_url html_url issue_nr;
        Issue.number := Some issue_nr;
        Issue.message := Some message;
        Issue.assignee := stringified_assignee;
        Issue.title := title;
        Issue.assignee_updated :=
          if String.eqb action "assigned" then stringified_assignee else None |}.

(** The action text shared by both kinds of comment events. *)
Definition comment_action_text (action html_url : string) : string :=
  (if String.eqb action "created" then "[commented]" else action ++ " a [comment]")
  ++ "(" ++ html_url ++ ") on".

Definition format_issue_comment_event_kwargs (payload : json) (include_title : bool)
  : result Issue.kwargs :=
  action <- tame check_string (wild payload @ "action") ;;
  comment <- wild payload @ "comment" ;;
  issue <- wild payload @ "issue" ;;
  comment_url <- tame check_string (wild comment @ "html_url") ;;
  let action := comment_action_text action comment_url in
  user_name <- tame check_string (wild payload @ "sender" @ "login") ;;
  html_url <- tame check_string (wild payload @ "repository" @ "html_url") ;;
  number <- tame check_int (wild issue @ "number") ;;
  number' <- tame check_int (wild issue @ "number") ;;
  message <- tame check_string (wild comment @ "body") ;;
  title <- (if include_title
            then fmap Some (tame check_string (wild issue @ "title"))
            else Ok None) ;;
  Ok {| Issue.user_name := user_name;
        Issue.action := action;
        Issue.url := get_issue_url html_url number;
        Issue.number := Some number';
        Issue.message := Some message;
        Issue.assignee := None;
        Issue.title := title;
        Issue.assignee_updated := None |}.

Definition format_release_event_kwargs (payload : json) (include_title : bool)
  : result Release.kwargs :=
  user_name <- tame check_string (wild payload @ "release" @ "author" @ "username") ;;
  action <- tame check_string (wild payload @ "action") ;;
  tagname <- tame check_string (wild payload @ "release" @ "tag_name") ;;
  release_name <- tame check_string (wild payload @ "release" @ "name") ;;
  url <- tame check_string (wild payload @ "repository" @ "html_url") ;;
  Ok {| Release.user_name := user_name;
        Release.action := action;
        Release.tagname := tagname;
        Release.release_name := release_name;
        Release.url := url |}.

(** The inline call of [handle_issue_comment_event] for a comment on a
    pull request. *)
Definition pull_request_comment_kwargs (payload : json) : result PullRequest.kwargs :=
  action <- tame check_string (wild payload @ "action") ;;
  comment_url <- tame check_string (wild payload @ "comment" @ "html_url") ;;
  let action_text := comment_action_text action comment_url in
  user_name <- tame check_string (wild payload @ "sender" @ "login") ;;
  url <- tame check_string (wild payload @ "issue" @ "html_url") ;;
  number <- tame check_int (wild payload @ "issue" @ "number") ;;
  message <- tame check_string (wild payload @ "comment" @ "body") ;;
  title <- tame check_string (wild payload @ "issue" @ "title") ;;
  Ok {| PullRequest.user_name := user_name;
        PullRequest.action := action_text;
        PullRequest.url := url;
        PullRequest.number := Some number;
        PullRequest.target_branch := None;
        PullRequest.base_branch := None;
        PullRequest.message := Some message;
        PullRequest.type := Some "PR";
        PullRequest.title := Some title;
        PullRequest.assignee_updated := None |}.

(** ** Requests *)

Record HttpRequest : Type := {
  headers : list (string * string)
}.

Inductive HttpResponse : Type :=
| json_success.

Definition lower (c : ascii) : ascii :=
  let n := nat_of_ascii c in
  if ((65 <=? n) && (n <=? 90))%nat then ascii_of_nat (n + 32) else c.

Fixpoint lowercase (s : string) : string :=
  match s with
  | EmptyString => EmptyString
  | String c rest => String (lower c) (lowercase rest)
  end.

Fixpoint header_lookup (header : string) (hs : list (string * string)) : option string :=
  match hs with
  | [] => None
  | (k, v) :: rest =>
      if String.eqb (lowercase k) (lowercase header) then Some v
      else header_lookup header rest
  end.

(** Modelled from the spec: the header validation of
    [zerver.lib.webhooks.common], which is not among the sources.  It
    returns the value of the named header (header names compare without
    regard to case) and raises [MissingHTTPEventHeaderError] when the
    request does not carry it. *)
Definition validate_extract_webhook_http_header
    (request : HttpRequest) (header integration_name : string) : result string :=
  match header_lookup header (headers request) with
  | Some v => Ok v
  | None => Raise (MissingHTTPEventHeaderError header)
  end.

Section Gogs.

Context {UserProfile : Type}.
Variable lib : GitLib.

(** *** Formatters: the keyword arguments handed to the renderer *)

Definition format_push_event (payload : json) : result string :=
  fmap (get_push_commits_event_message lib) (format_push_event_kwargs payload).

Definition format_new_branch_event (payload : json) : result string :=
  fmap (get_create_branch_event_message lib) (format_new_branch_event_kwargs payload).

Definition format_pull_request_event (payload : json) (include_title : bool)
  : result string :=
  fmap (get_pull_request_event_message lib)
       (format_pull_request_event_kwargs payload include_title).

Definition format_issues_event (payload : json) (include_title : bool)
  : result string :=
  fmap (get_issue_event_message lib) (format_issues_event_kwargs payload include_title).

Definition format_issue_comment_event (payload : json) (include_title : bool)
  : result string :=
  fmap (get_issue_event_message lib)
       (format_issue_comment_event_kwargs payload include_title).

Definition format_release_event (payload : json) (include_title : bool)
  : result string :=
  fmap (get_release_event_message lib) (format_release_event_kwargs payload include_title).

(** *** Handlers *)

Definition NotificationResult : Type := (option string * option string)%type.

Definition Handler : Type := Helper.t -> result NotificationResult.

(** [x is not None] *)
Definition is_not_None {A : Type} (x : option A) : bool :=
  match x with
  | Some _ => true
  | None => false
  end.

Definition handle_push_event : Handler := fun helper =>
  ref <- tame check_string (wild (Helper.payload helper) @ "ref") ;;
  let branch := PyStr.replace "refs/heads/" "" ref in
  if negb (is_branch_name_notifiable lib branch (Helper.branches helper))
  then Ok (None, None)
  else
    body <- format_push_event (Helper.payload helper) ;;
    let topic_name := TOPIC_WITH_BRANCH_TEMPLATE lib (Helper.repo helper) branch in
    Ok (Some topic_name, Some body).

Definition handle_create_event : Handler := fun helper =>
  body <- format_new_branch_event (Helper.payload helper) ;;
  branch <- tame check_string (wild (Helper.payload helper) @ "ref") ;;
  let topic_name := TOPIC_WITH_BRANCH_TEMPLATE lib (Helper.repo helper) branch in
  Ok (Some topic_name, Some body).

Definition handle_pull_request_event : Handler := fun helper =>
  body <- Helper.format_pull_request_event helper
            (Helper.payload helper)
            (is_not_None (Helper.user_specified_topic helper)) ;;
  id <- tame check_int (wild (Helper.payload helper) @ "pull_request" @ "id") ;;
  title <- tame check_string (wild (Helper.payload helper) @ "pull_request" @ "title") ;;
  let topic_name :=
    TOPIC_WITH_PR_OR_ISSUE_INFO_TEMPLATE lib (Helper.repo helper) "PR" id title in
  Ok (Some topic_name, Some body).

Definition handle_issues_event : Handler := fun helper =>
  body <- format_issues_event
            (Helper.payload helper)
            (is_not_None (Helper.user_specified_topic helper)) ;;
  id <- tame check_int (wild (Helper.payload helper) @ "issue" @ "number") ;;
  title <- tame check_string (wild (Helper.payload helper) @ "issue" @ "title") ;;
  let topic_name :=
    TOPIC_WITH_PR_OR_ISSUE_INFO_TEMPLATE lib (Helper.repo helper) "issue" id title in
  Ok (Some topic_name, Some body).

(** The first half of [handle_issue_comment_event]: the body and the
    type tag of the topic. *)
Definition issue_comment_body (helper : Helper.t) : result (string * string) :=
  if String.eqb (Helper.event_type helper) "pull_request_comment" then
    body <- fmap (get_pull_request_event_message lib)
                 (pull_request_comment_kwargs (Helper.payload helper)) ;;
    Ok (body, "PR")
  else
    body <- format_issue_comment_event
              (Helper.payload helper)
              (is_not_None (Helper.user_specified_topic helper)) ;;
    Ok (body, "issue").

Definition handle_issue_comment_event : Handler := fun helper =>
  bt <- issue_comment_body helper ;;
  let '(body, topic_type) := bt in
  repo <- tame check_string (wild (Helper.payload helper) @ "repository" @ "name") ;;
  id <- tame check_int (wild (Helper.payload helper) @ "issue" @ "number") ;;
  title <- tame check_string (wild (Helper.payload helper) @ "issue" @ "title") ;;
  let topic_name := TOPIC_WITH_PR_OR_ISSUE_INFO_TEMPLATE lib repo topic_type id title in
  Ok (Some topic_name, Some body).

Definition handle_release_event : Handler := fun helper =>
  body <- format_release_event
            (Helper.payload helper)
            (is_not_None (Helper.user_specified_topic helper)) ;;
  tag <- tame check_string (wild (Helper.payload helper) @ "release" @ "tag_name") ;;
  title <- tame check_string (wild (Helper.payload helper) @ "release" @ "name") ;;
  let topic_name := TOPIC_WITH_RELEASE_TEMPLATE lib (Helper.repo helper) tag title in
  Ok (Some topic_name, Some body).

Definition GOGS_EVENT_FUNCTION_MAPPER : list (string * Handler) :=
  [ ("push", handle_push_event);
    ("create", handle_create_event);
    ("pull_request", handle_pull_request_event);
    ("issues", handle_issues_event);
    ("issue_comment", handle_issue_comment_event);
    ("release", handle_release_event) ].

Definition ALL_EVENT_TYPES : list string := map fst GOGS_EVENT_FUNCTION_MAPPER.

(** *** Dispatcher *)

(** One call of [check_send_webhook_message]. *)
Record SendCall : Type := {
  send_request : HttpRequest;
  send_user_profile : UserProfile;
  send_topic : string;
  send_body : string;
  send_event : string
}.

(** A view runs against the log of the messages handed over for
    delivery and either returns or raises. *)
Definition View (A : Type) : Type := list SendCall -> list SendCall * result A.

Definition lift {A : Type} (m : result A) : View A := fun log => (log, m).

Definition raise {A : Type} (e : exn) : View A := lift (Raise e).

Definition bindV {A B : Type} (m : View A) (k : A -> View B) : View B :=
  fun log =>
    match m log with
    | (log', Ok a) => k a log'
    | (log', Raise e) => (log', Raise e)
    end.

(** Modelled from the spec: the delivery call of
    [zerver.lib.webhooks.common], which is not among the sources: it
    takes the request, the recipient profile, the topic, the body and
    the raw event kind and performs the send. *)
Definition check_send_webhook_message
    (request : HttpRequest) (user_profile : UserProfile)
    (topic_name body event : string) : View unit :=
  fun log =>
    ((log ++ [ {| send_request := request;
                  send_user_profile := user_profile;
                  send_topic := topic_name;
                  send_body := body;
                  send_event := event |} ])%list,
     Ok tt).

(** [bool(x)] for a [str | None]. *)
Definition truthy_opt (x : option string) : bool :=
  match x with
  | Some s => PyStr.truthy s
  | None => false
  end.

Definition str_of (x : option string) : string :=
  match x with
  | Some s => s
  | None => EmptyString
  end.

(** The [try ... except MissingHTTPEventHeaderError] of lines 321-326. *)
Definition extract_event_type (request : HttpRequest) (integration_name : string)
  : result string :=
  match validate_extract_webhook_http_header
          request "x-gitea-event-type" integration_name with
  | Raise (MissingHTTPEventHeaderError _) => Ok "default_event_type"
  | r => r
  end.

Definition gogs_webhook_main
    (integration_name http_header_name : string)
    (format_pull_request_event : json -> bool -> result string)
    (request : HttpRequest) (user_profile : UserProfile)
    (payload : json) (branches user_specified_topic : option string)
  : View HttpResponse :=
  bindV (lift (tame check_string (wild payload @ "repository" @ "name"))) (fun repo =>
  bindV (lift (validate_extract_webhook_http_header
                 request http_header_name integration_name)) (fun event =>
  bindV (lift (extract_event_type request integration_name)) (fun event_type =>
  let helper :=
    {| Helper.payload := payload;
       Helper.branches := branches;
       Helper.user_specified_topic := user_specified_topic;
       Helper.repo := repo;
       Helper.event_type := event_type;
       Helper.format_pull_request_event := format_pull_request_event |} in
  match assoc event GOGS_EVENT_FUNCTION_MAPPER with
  | Some handler =>
      bindV (lift (handler helper)) (fun '(topic_name, body) =>
      if truthy_opt topic_name && truthy_opt body then
        bindV (check_send_webhook_message
                 request user_profile (str_of topic_name) (str_of body) event)
              (fun _ => lift (Ok json_success))
      else if String.eqb event "push" then lift (Ok json_success)
      else raise (UnsupportedWebhookEventTypeError event))
  | None => raise (UnsupportedWebhookEventTypeError event)
  end))).

Definition api_gogs_webhook
    (request : HttpRequest) (user_profile : UserProfile)
    (payload : json) (branches user_specified_topic : option string)
  : View HttpResponse :=
  gogs_webhook_main "Gogs" "X-Gogs-Event" format_pull_request_event
    request user_profile payload branches user_specified_topic.

End Gogs.

(** ** A concrete library and sample deliveries

    An instance of [GitLib] on which the handlers can be run: templates
    [{repo} / {branch}], [{repo} / {type} #{id} {title}] and
    [{repo} / {tag} {title}], and one-line renderers. *)

Module Sample.

Fixpoint split_on_from (sep : ascii) (word : string) (s : string) : list string :=
  match s with
  | EmptyString => [word]
  | String c rest =>
      if Ascii.eqb c sep then word :: split_on_from sep EmptyString rest
      else split_on_from sep (word ++ String c EmptyString) rest
  end.

Fixpoint lstrip (s : string) : string :=
  match s with
  | EmptyString => EmptyString
  | String c rest => if PyStr.is_space c then lstrip rest else s
  end.

Definition reverse (s : string) : string :=
  string_of_list_ascii (rev (list_ascii_of_string s)).

Definition strip (s : string) : string := reverse (lstrip (reverse (lstrip s))).

(** Modelled from the spec: the branch filter of
    [zerver.lib.webhooks.git], which is not among the sources.  Without
    an allow-list every branch passes; otherwise the branch has to be
    one of the comma-separated names of the list. *)
Definition branch_in_allow_list (branch : string) (branches : option string) : bool :=
  match branches with
  | None => true
  | Some names =>
      existsb (String.eqb branch) (map strip (split_on_from "," EmptyString names))
  end.

Definition opt (prefix : string) (x : option string) : string :=
  match x with
  | Some s => prefix ++ s
  | None => EmptyString
  end.

Definition opt_id (x : option Z) : string :=
  match x with
  | Some n => " #" ++ PyStr.of_int n
  | None => EmptyString
  end.

Definition commit_line (c : CommitSummary) : string :=
  " * " ++ message c ++ " ([" ++ sha c ++ "](" ++ url c ++ ")) by " ++ name c.

Definition push_message (k : PushCommits.kwargs) : string :=
  PushCommits.user_name k ++ " [pushed](" ++ PushCommits.compare_url k
  ++ ") to branch " ++ PushCommits.branch_name k ++ "."
  ++ String.concat "" (map commit_line (PushCommits.commits_data k)).

Definition create_message (k : CreateBranch.kwargs) : string :=
  CreateBranch.user_name k ++ " created [" ++ CreateBranch.branch_name k
  ++ "](" ++ CreateBranch.url k ++ ") branch.".

Definition pull_request_message (k : PullRequest.kwargs) : string :=
  PullRequest.user_name k ++ " " ++ PullRequest.action k ++ " ["
  ++ match PullRequest.type k with Some t => t | None => "PR" end
  ++ opt_id (PullRequest.number k) ++ opt " " (PullRequest.title k)
  ++ "](" ++ PullRequest.url k ++ ")"
  ++ opt " from " (PullRequest.target_branch k)
  ++ opt " to " (PullRequest.base_branch k)
  ++ opt " assigned to " (PullRequest.assignee_updated k)
  ++ opt ": " (PullRequest.message k).

Definition issue_message (k : Issue.kwargs) : string :=
  Issue.user_name k ++ " " ++ Issue.action k ++ " [issue"
  ++ opt_id (Issue.number k) ++ opt " " (Issue.title k)
  ++ "](" ++ Issue.url k ++ ")"
  ++ opt " assigned to " (Issue.assignee k)
  ++ opt " assignee now " (Issue.assignee_updated k)
  ++ opt ": " (Issue.message k).

Definition release_message (k : Release.kwargs) : string :=
  Release.user_name k ++ " " ++ Release.action k ++ " release ["
  ++ Release.release_name k ++ "](" ++ Release.url k ++ ") for tag "
  ++ Release.tagname k ++ ".".

Definition git : GitLib := {|
  TOPIC_WITH_BRANCH_TEMPLATE := fun repo branch => repo ++ " / " ++ branch;
  TOPIC_WITH_PR_OR_ISSUE_INFO_TEMPLATE := fun repo type id title =>
    repo ++ " / " ++ type ++ " #" ++ PyStr.of_int id ++ " " ++ title;
  TOPIC_WITH_RELEASE_TEMPLATE := fun repo tag title =>
    repo ++ " / " ++ tag ++ " " ++ title;
  get_create_branch_event_message := create_message;
  get_issue_event_message := issue_message;
  get_pull_request_event_message := pull_request_message;
  get_push_commits_event_message := push_message;
  get_release_event_message := release_message;
  is_branch_name_notifiable := branch_in_allow_list
|}.

Definition repository : json :=
  JDict [("name", JStr "try-git"); ("html_url", JStr "http://localhost:3000/john/try-git")].

Definition commit (username full : string) : json :=
  JDict [("id", JStr "abc123");
         ("message", JStr "fix bug");
         ("url", JStr "u");
         ("author", JDict [("name", JStr full); ("username", JStr username)])].

Definition push (ref : string) (commits : list json) : json :=
  JDict [("ref", JStr ref);
         ("compare_url", JStr "c");
         ("commits", JList commits);
         ("repository", repository);
         ("sender", JDict [("username", JStr "john")])].

Definition create : json :=
  JDict [("ref", JStr "feature");
         ("repository", repository);
         ("sender", JDict [("username", JStr "john")])].

Definition pull_request (action : json) (merged : bool) (assignee : json) : json :=
  JDict [("action", action);
         ("pull_request",
          JDict [("id", JInt 1349); ("number", JInt 1);
                 ("title", JStr "Title Text for Pull Request");
                 ("html_url", JStr "http://localhost:3000/john/try-git/pulls/1");
                 ("head_branch", JStr "feature"); ("base_branch", JStr "master");
                 ("merged", JBool merged);
                 ("merged_by", JDict [("username", JStr "bob")]);
                 ("user", JDict [("username", JStr "john")]);
                 ("assignee", assignee)]);
         ("repository", repository)].

Definition issue_comment (action : string) : json :=
  JDict [("action", JStr action);
         ("issue",
          JDict [("number", JInt 3); ("title", JStr "Test issue");
                 ("html_url", JStr "http://localhost:3000/john/try-git/pulls/3")]);
         ("comment",
          JDict [("html_url", JStr "http://localhost:3000/john/try-git/issues/3#issuecomment-3");
                 ("body", JStr "Test comment")]);
         ("repository", repository);
         ("sender", JDict [("login", JStr "kostekIV")])].

Definition helper (payload : json) (branches topic : option string) (event_type : string)
  : Helper.t :=
  {| Helper.payload := payload;
     Helper.branches := branches;
     Helper.user_specified_topic := topic;
     Helper.repo := "try-git";
     Helper.event_type := event_type;
     Helper.format_pull_request_event := format_pull_request_event git |}.

Definition request (event : string) : HttpRequest :=
  {| headers := [("X-Gogs-Event", event)] |}.

End Sample.

(** * Properties *)

(** ** The error monad *)

Lemma bind_Ok_inv {A B : Type} (m : result A) (k : A -> result B) (b : B) :
  m >>= k = Ok b -> exists a, m = Ok a /\ k a = Ok b.
Proof.
  destruct m as [a|e]; simpl; intro H; [exists a; auto | discriminate].
Qed.

Lemma fmap_Ok_inv {A B : Type} (f : A -> B) (m : result A) (b : B) :
  fmap f m = Ok b -> exists a, m = Ok a /\ b = f a.
Proof.
  unfold fmap. intro H. apply bind_Ok_inv in H as (a & Ha & Hb).
  exists a. split; [assumption | congruence].
Qed.

(** [returns Q m]: whenever [m] returns, its value satisfies [Q]. *)
Definition returns {A : Type} (Q : A -> Prop) (m : result A) : Prop :=
  forall a, m = Ok a -> Q a.

(** [raises P m]: whenever [m] raises, the exception satisfies [P]. *)
Definition raises {A : Type} (P : exn -> Prop) (m : result A) : Prop :=
  forall e, m = Raise e -> P e.

Lemma returns_bind {A B : Type} (Q : B -> Prop) (m : result A) (k : A -> result B) :
  (forall a, m = Ok a -> returns Q (k a)) -> returns Q (m >>= k).
Proof.
  intros H b Hb. apply bind_Ok_inv in Hb as (a & Ha & Hk). exact (H a Ha b Hk).
Qed.

Lemma returns_Ok {A : Type} (Q : A -> Prop) (a : A) : Q a -> returns Q (Ok a).
Proof. intros H x Hx. congruence. Qed.

Lemma raises_bind {A B : Type} (P : exn -> Prop) (m : result A) (k : A -> result B) :
  raises P m -> (forall a, raises P (k a)) -> raises P (m >>= k).
Proof.
  intros Hm Hk e. destruct m as [a|e']; simpl.
  - apply Hk.
  - intro H. apply Hm. congruence.
Qed.

Lemma raises_Ok {A : Type} (P : exn -> Prop) (a : A) : raises P (Ok a).
Proof. intros e H. discriminate. Qed.

Lemma raises_Raise {A : Type} (P : exn -> Prop) (e : exn) : P e -> raises P (@Raise A e).
Proof. intros H e' He'. congruence. Qed.

Lemma raises_fmap {A B : Type} (P : exn -> Prop) (f : A -> B) (m : result A) :
  raises P m -> raises P (fmap f m).
Proof. intro H. apply raises_bind; [assumption | intro; apply raises_Ok]. Qed.

(** What an extraction and the commit transformation can raise. *)
Definition schema_violation (e : exn) : Prop := e = ValidationError.

Definition formatter_failure (e : exn) : Prop := e = ValidationError \/ e = IndexError.

Lemma schema_violation_failure (e : exn) : schema_violation e -> formatter_failure e.
Proof. intro H. left. exact H. Qed.

Lemma raises_weaken {A : Type} (P Q : exn -> Prop) (m : result A) :
  (forall e, P e -> Q e) -> raises P m -> raises Q m.
Proof. intros H Hm e He. apply H, Hm, He. Qed.

Lemma raises_getitem (v : json) (key : string) : raises schema_violation (getitem v key).
Proof.
  intros e. unfold getitem. destruct v; try (intro H; injection H as <-; reflexivity).
  destruct (assoc key d); intro H; [discriminate | injection H as <-; reflexivity].
Qed.

Lemma raises_wild (p : json) : raises schema_violation (wild p).
Proof. apply raises_Ok. Qed.

Lemma raises_sub (v : result json) (key : string) :
  raises schema_violation v -> raises schema_violation (v @ key).
Proof. intro H. apply raises_bind; [assumption | intro; apply raises_getitem]. Qed.

Lemma raises_check_string (v : json) : raises schema_violation (check_string v).
Proof. intros e; destruct v; simpl; intro H; try discriminate; injection H as <-; reflexivity. Qed.

Lemma raises_check_int (v : json) : raises schema_violation (check_int v).
Proof. intros e; destruct v; simpl; intro H; try discriminate; injection H as <-; reflexivity. Qed.

Lemma raises_check_bool (v : json) : raises schema_violation (check_bool v).
Proof. intros e; destruct v; simpl; intro H; try discriminate; injection H as <-; reflexivity. Qed.

Lemma raises_iter (v : json) : raises schema_violation (iter v).
Proof. intros e; destruct v; simpl; intro H; try discriminate; injection H as <-; reflexivity. Qed.

Lemma raises_tame {A : Type} (validator : json -> result A) (v : result json) :
  (forall x, raises schema_violation (validator x)) ->
  raises schema_violation v -> raises schema_violation (tame validator v).
Proof. intros Hc Hv. apply raises_bind; assumption. Qed.

Create HintDb schema.

#[export] Hint Resolve raises_wild raises_sub raises_check_string raises_check_int
  raises_check_bool raises_iter raises_tame raises_Ok raises_getitem : schema.

(** Walks a chain of binds, conditionals and pair matches. *)
Ltac walk_returns :=
  repeat first
    [ apply returns_bind; intros ? ?
    | match goal with
      | |- returns _ (if ?c then _ else _) => destruct c eqn:?
      | |- returns _ (let '(_, _) := ?p in _) => destruct p eqn:?
      end ].

(** Inverts a hypothesis [m >>= k = Ok x] one bind at a time. *)
Ltac invert_bind H :=
  let a := fresh "v" in
  let E := fresh "E" in
  apply bind_Ok_inv in H as (a & E & H).

(** ** Splitting on white space *)

(** [first_token s tok]: [tok] is the first maximal run of non-space
    characters of [s]. *)
Definition first_token (s tok : string) : Prop :=
  exists pre post,
    s = pre ++ tok ++ post /\
    PyStr.all_space pre = true /\
    tok <> "" /\
    PyStr.no_space tok = true /\
    (post = "" \/ exists c r, post = String c r /\ PyStr.is_space c = true).

Lemma append_empty_r (s : string) : s ++ "" = s.
Proof. induction s as [|c s IH]; simpl; [reflexivity | now rewrite IH]. Qed.

Lemma append_snoc (w m : string) (c : ascii) :
  (w ++ String c "") ++ m = w ++ String c m.
Proof. induction w as [|d w IH]; simpl; [reflexivity | now rewrite IH]. Qed.

Lemma snoc_not_empty (w : string) (c : ascii) : w ++ String c "" <> "".
Proof. destruct w; discriminate. Qed.

Lemma split_from_head (s : string) :
  forall word tok rest,
    PyStr.split_from word s = tok :: rest ->
    match word with
    | EmptyString => first_token s tok
    | _ =>
        exists mid post,
          s = mid ++ post /\ tok = word ++ mid /\ PyStr.no_space mid = true /\
          (post = "" \/ exists c r, post = String c r /\ PyStr.is_space c = true)
    end.
Proof.
  induction s as [|c s IH]; intros word tok rest H; simpl in H.
  - destruct word as [|d w]; [discriminate|].
    injection H as <- _. exists "", "". simpl. rewrite append_empty_r. auto.
  - destruct (PyStr.is_space c) eqn:Hc.
    + destruct word as [|d w].
      * specialize (IH _ _ _ H). simpl in IH.
        destruct IH as (pre & post & -> & Hpre & Hne & Hns & Hpost).
        exists (String c pre), post. simpl. unfold PyStr.all_space in *. simpl.
        rewrite Hc, Hpre. auto.
      * injection H as <- _. exists "", (String c s). simpl.
        rewrite append_empty_r. repeat split; auto. right. eauto.
    + specialize (IH _ _ _ H).
      destruct (word ++ String c "") as [|d w] eqn:Hw;
        [exfalso; exact (snoc_not_empty _ _ Hw)|].
      destruct IH as (mid & post & -> & -> & Hns & Hpost). rewrite <- Hw.
      destruct word as [|d' w'].
      * exists "", post. simpl. unfold PyStr.no_space in *. simpl. rewrite Hc, Hns.
        repeat split; auto. discriminate.
      * exists (String c mid), post. rewrite append_snoc.
        unfold PyStr.no_space in *. simpl. rewrite Hc, Hns. auto.
Qed.

Lemma split_first_token (s tok : string) (rest : list string) :
  PyStr.split s = tok :: rest -> first_token s tok.
Proof. intro H. exact (split_from_head s "" tok rest H). Qed.

Lemma split_from_all_space (s : string) :
  PyStr.all_space s = true -> PyStr.split_from "" s = [].
Proof.
  unfold PyStr.all_space. induction s as [|c s IH]; simpl; [reflexivity|].
  intro H. apply andb_true_iff in H as [Hc Hs]. rewrite Hc. auto.
Qed.

(** ** Commit summaries *)

Definition author_name_of (commit : json) (n : string) : Prop :=
  exists username,
    tame check_string (wild commit @ "author" @ "username") = Ok username /\
    ((username <> "" /\ n = username) \/
     (username = "" /\
      exists full,
        tame check_string (wild commit @ "author" @ "name") = Ok full /\
        first_token full n)).

Definition summarises (commit : json) (s : CommitSummary) : Prop :=
  author_name_of commit (name s) /\
  tame check_string (wild commit @ "id") = Ok (sha s) /\
  tame check_string (wild commit @ "url") = Ok (url s) /\
  tame check_string (wild commit @ "message") = Ok (message s).

Lemma transform_commit_summarises (commit : json) (s : CommitSummary) :
  transform_commit commit = Ok s -> summarises commit s.
Proof.
  unfold transform_commit. intro H.
  invert_bind H. rename v into username, E into Hu.
  invert_bind H. rename v into n, E into Hn.
  invert_bind H. rename v into i, E into Hi.
  invert_bind H. rename v into u, E into Hurl.
  invert_bind H. rename v into m, E into Hm.
  injection H as <-. simpl. repeat split; auto.
  exists username. split; [assumption|].
  destruct username as [|c r]; simpl in Hn.
  - right. split; [reflexivity|].
    invert_bind Hn. rename v into full. exists full. split; [assumption|].
    destruct (PyStr.split full) as [|tok rest] eqn:Hs; simpl in Hn; [discriminate|].
    injection Hn as <-. exact (split_first_token _ _ _ Hs).
  - left. injection Hn as <-. split; [discriminate | reflexivity].
Qed.

Lemma transform_commits_summarise (commits : list json) :
  forall summaries,
    transform_commits commits = Ok summaries -> Forall2 summarises commits summaries.
Proof.
  induction commits as [|commit rest IH]; intros summaries H; simpl in H.
  - injection H as <-. constructor.
  - invert_bind H. rename v into s, E into Hs.
    invert_bind H. rename v into ss, E into Hss.
    injection H as <-. constructor; [apply transform_commit_summarises | apply IH]; assumption.
Qed.

(** C8. Whenever the commit list of a push payload is transformed, the
    value is a list, and the summaries follow its commits one by one: the
    name is the author's username when that is non-empty and the first
    white-space separated token of the author's full name otherwise; the
    sha, the url and the message are the commit's id, url and message. *)
Theorem commit_summaries_follow_commits (commits : json) (summaries : list CommitSummary) :
  _transform_commits_list_to_common_format (wild commits) = Ok summaries ->
  exists l, commits = JList l /\ Forall2 summarises l summaries.
Proof.
  unfold _transform_commits_list_to_common_format, wild. simpl. intro H.
  invert_bind H. destruct commits; simpl in E; try discriminate.
  injection E as <-. exists l. split; [reflexivity|].
  apply transform_commits_summarise. exact H.
Qed.

Lemma commit_summaries_follow_commits_witness :
  exists l,
    JList [Sample.commit "alice" ""; Sample.commit "" " John  Smith"] = JList l /\
    Forall2 summarises l
      [ {| name := "alice"; sha := "abc123"; url := "u"; message := "fix bug" |};
        {| name := "John"; sha := "abc123"; url := "u"; message := "fix bug" |} ].
Proof.
  apply (commit_summaries_follow_commits
           (JList [Sample.commit "alice" ""; Sample.commit "" " John  Smith"])).
  reflexivity.
Defined.

(** ** The push formatter on commits without an author name *)

Definition is_Ok {A : Type} (m : result A) : bool :=
  match m with
  | Ok _ => true
  | Raise _ => false
  end.

(** A commit is schema-valid when every field the transformation may
    extract from it is there and is a string. *)
Definition commit_schema_valid (commit : json) : bool :=
  is_Ok (tame check_string (wild commit @ "author" @ "username"))
  && is_Ok (tame check_string (wild commit @ "author" @ "name"))
  && is_Ok (tame check_string (wild commit @ "id"))
  && is_Ok (tame check_string (wild commit @ "url"))
  && is_Ok (tame check_string (wild commit @ "message")).

Definition push_schema_valid (payload : json) : bool :=
  is_Ok (tame check_string (wild payload @ "sender" @ "username"))
  && is_Ok (tame check_string (wild payload @ "compare_url"))
  && is_Ok (tame check_string (wild payload @ "ref"))
  && match wild payload @ "commits" >>= iter with
     | Ok commits => forallb commit_schema_valid commits
     | Raise _ => false
     end.

Definition blank_author (commit : json) : Prop :=
  tame check_string (wild commit @ "author" @ "username") = Ok "" /\
  exists full,
    tame check_string (wild commit @ "author" @ "name") = Ok full /\
    PyStr.all_space full = true.

Lemma blank_author_raises (commit : json) :
  blank_author commit -> transform_commit commit = Raise IndexError.
Proof.
  intros (Hu & full & Hf & Hs). unfold transform_commit.
  rewrite Hu. cbn [bind PyStr.truthy]. rewrite Hf. cbn [bind].
  unfold PyStr.split. rewrite (split_from_all_space _ Hs). reflexivity.
Qed.

(** The first commit without a usable author name stops the
    transformation with an [IndexError], whatever follows it. *)
Lemma transform_commits_blank_author (before after : list json) (commit : json) :
  is_Ok (transform_commits before) = true ->
  blank_author commit ->
  transform_commits (before ++ commit :: after) = Raise IndexError.
Proof.
  intros Hb Hc. induction before as [|c before IH]; simpl in *.
  - now rewrite (blank_author_raises _ Hc).
  - destruct (transform_commit c) as [s|e]; simpl in *; [|discriminate].
    destruct (transform_commits before) as [ss|e]; simpl in *; [|discriminate].
    now rewrite IH.
Qed.

(** C10. There are schema-valid push payloads, one with a commit whose
    author has an empty username and an empty full name and one where the
    full name is white space only, on which the commit transformation, and
    with it the push formatter and the push handler, stop with an
    [IndexError] and not with a schema violation. *)
Theorem push_formatter_not_total (lib : GitLib) :
  exists empty_name blank_name : json,
    empty_name = Sample.push "refs/heads/main" [Sample.commit "" ""] /\
    blank_name = Sample.push "refs/heads/main"
                   [Sample.commit "alice" "Alice"; Sample.commit "" "  "] /\
    push_schema_valid empty_name = true /\
    push_schema_valid blank_name = true /\
    _transform_commits_list_to_common_format (wild empty_name @ "commits")
      = Raise IndexError /\
    _transform_commits_list_to_common_format (wild blank_name @ "commits")
      = Raise IndexError /\
    format_push_event lib empty_name = Raise IndexError /\
    format_push_event lib blank_name = Raise IndexError.
Proof.
  eexists; eexists.
  split; [reflexivity|]. split; [reflexivity|].
  repeat split; reflexivity.
Qed.

(** ** Shape of the handlers' results *)

Definition both_or_neither (r : option string * option string) : Prop :=
  (fst r = None /\ snd r = None) \/ (fst r <> None /\ snd r <> None).

Lemma both_present (topic body : string) : both_or_neither (Some topic, Some body).
Proof. right. split; discriminate. Qed.

#[local] Hint Resolve both_present : core.

Ltac shape :=
  walk_returns; apply returns_Ok; auto; left; split; reflexivity.

Lemma handle_push_event_shape (lib : GitLib) (helper : Helper.t) :
  returns both_or_neither (handle_push_event lib helper).
Proof. unfold handle_push_event. shape. Qed.

Lemma handle_create_event_shape (lib : GitLib) (helper : Helper.t) :
  returns both_or_neither (handle_create_event lib helper).
Proof. unfold handle_create_event. shape. Qed.

Lemma handle_pull_request_event_shape (lib : GitLib) (helper : Helper.t) :
  returns both_or_neither (handle_pull_request_event lib helper).
Proof. unfold handle_pull_request_event. shape. Qed.

Lemma handle_issues_event_shape (lib : GitLib) (helper : Helper.t) :
  returns both_or_neither (handle_issues_event lib helper).
Proof. unfold handle_issues_event. shape. Qed.

Lemma handle_issue_comment_event_shape (lib : GitLib) (helper : Helper.t) :
  returns both_or_neither (handle_issue_comment_event lib helper).
Proof. unfold handle_issue_comment_event. shape. Qed.

Lemma handle_release_event_shape (lib : GitLib) (helper : Helper.t) :
  returns both_or_neither (handle_release_event lib helper).
Proof. unfold handle_release_event. shape. Qed.

(** The handlers of the dispatch table, by event kind. *)
Lemma mapper_cases (lib : GitLib) (event : string) (handler : Handler) :
  assoc event (GOGS_EVENT_FUNCTION_MAPPER lib) = Some handler ->
  (event = "push" /\ handler = handle_push_event lib)
  \/ (event = "create" /\ handler = handle_create_event lib)
  \/ (event = "pull_request" /\ handler = handle_pull_request_event lib)
  \/ (event = "issues" /\ handler = handle_issues_event lib)
  \/ (event = "issue_comment" /\ handler = handle_issue_comment_event lib)
  \/ (event = "release" /\ handler = handle_release_event lib).
Proof.
  unfold GOGS_EVENT_FUNCTION_MAPPER, assoc.
  repeat match goal with
         | |- context [String.eqb ?k event] =>
             destruct (String.eqb_spec k event) as [<-|?];
             [intro H; injection H as <-; tauto|]
         end.
  discriminate.
Qed.

(** C7. Every handler of the dispatch table, on every context on which
    it returns, returns a topic and a body that are both absent or both
    present. *)
Theorem handlers_return_both_or_neither
    (lib : GitLib) (event : string) (handler : Handler) (helper : Helper.t)
    (topic body : option string) :
  assoc event (GOGS_EVENT_FUNCTION_MAPPER lib) = Some handler ->
  handler helper = Ok (topic, body) ->
  (topic = None /\ body = None) \/ (topic <> None /\ body <> None).
Proof.
  intros Hm Hr.
  assert (H : returns both_or_neither (handler helper)).
  { destruct (mapper_cases _ _ _ Hm) as [[_ ->]|[[_ ->]|[[_ ->]|[[_ ->]|[[_ ->]|[_ ->]]]]]].
    - apply handle_push_event_shape.
    - apply handle_create_event_shape.
    - apply handle_pull_request_event_shape.
    - apply handle_issues_event_shape.
    - apply handle_issue_comment_event_shape.
    - apply handle_release_event_shape. }
  exact (H _ Hr).
Qed.

Lemma handlers_return_both_or_neither_witness :
  (@None string = None /\ @None string = None)
  \/ (@None string <> None /\ @None string <> None).
Proof.
  apply (handlers_return_both_or_neither Sample.git "push" (handle_push_event Sample.git)
           (Sample.helper (Sample.push "refs/heads/main" [Sample.commit "alice" ""])
                          (Some "dev") None "default_event_type")).
  - reflexivity.
  - reflexivity.
Defined.

(** ** The pull-request formatter *)

(** The steps of [format_pull_request_event], read off a successful run. *)
Lemma format_pull_request_event_kwargs_inv
    (payload : json) (include_title : bool) (k : PullRequest.kwargs) :
  format_pull_request_event_kwargs payload include_title = Ok k ->
  exists merged user_name action url number target base title assignee,
    tame check_bool (wild payload @ "pull_request" @ "merged") = Ok merged /\
    (if merged
     then tame check_string (wild payload @ "pull_request" @ "merged_by" @ "username")
            = Ok user_name /\ action = "merged"
     else tame check_string (wild payload @ "pull_request" @ "user" @ "username")
            = Ok user_name /\ tame check_string (wild payload @ "action") = Ok action) /\
    tame check_string (wild payload @ "pull_request" @ "html_url") = Ok url /\
    tame check_int (wild payload @ "pull_request" @ "number") = Ok number /\
    (if String.eqb action "edited"
     then target = None /\ base = None
     else exists head_branch base_branch,
            tame check_string (wild payload @ "pull_request" @ "head_branch")
              = Ok head_branch /\
            tame check_string (wild payload @ "pull_request" @ "base_branch")
              = Ok base_branch /\
            target = Some head_branch /\ base = Some base_branch) /\
    (if include_title
     then exists t, tame check_string (wild payload @ "pull_request" @ "title") = Ok t /\
                    title = Some t
     else title = None) /\
    pull_request_assignee payload = Ok assignee /\
    k = {| PullRequest.user_name := user_name;
           PullRequest.action := action;
           PullRequest.url := url;
           PullRequest.number := Some number;
           PullRequest.target_branch := target;
           PullRequest.base_branch := base;
           PullRequest.message := None;
           PullRequest.type := None;
           PullRequest.title := title;
           PullRequest.assignee_updated := assignee |}.
Proof.
  unfold format_pull_request_event_kwargs. intro H.
  invert_bind H. rename v into merged, E into Hmerged.
  invert_bind H. destruct v as [user_name action]. rename E into Hwho.
  invert_bind H. rename v into url, E into Hurl.
  invert_bind H. rename v into number, E into Hnumber.
  invert_bind H. destruct v as [target base]. rename E into Hheads.
  invert_bind H. rename v into title, E into Htitle.
  invert_bind H. rename v into assignee, E into Hassignee.
  injection H as <-.
  exists merged, user_name, action, url, number, target, base, title, assignee.
  repeat split; try assumption.
  - destruct merged.
    + invert_bind Hwho. injection Hwho as <- <-. auto.
    + invert_bind Hwho. invert_bind Hwho. injection Hwho as <- <-. auto.
  - destruct (String.eqb action "edited").
    + injection Hheads as <- <-. auto.
    + invert_bind Hheads. invert_bind Hheads. injection Hheads as <- <-.
      exists v, v0. auto.
  - destruct include_title.
    + apply fmap_Ok_inv in Htitle as (t & Ht & ->). eauto.
    + injection Htitle as <-. reflexivity.
Qed.

(** C6. On every pull-request payload the formatter accepts: a merged
    pull request is rendered with the action "merged" and the merger as
    actor; otherwise the action is the payload's action string and the
    actor the author of the pull request; the head and base branches are
    extracted unless the resulting action is "edited", so for a merged
    pull request they always are. *)
Theorem pull_request_action_and_actor
    (payload : json) (include_title : bool) (k : PullRequest.kwargs) :
  format_pull_request_event_kwargs payload include_title = Ok k ->
  exists merged,
    tame check_bool (wild payload @ "pull_request" @ "merged") = Ok merged /\
    (merged = true ->
       PullRequest.action k = "merged" /\
       tame check_string (wild payload @ "pull_request" @ "merged_by" @ "username")
         = Ok (PullRequest.user_name k)) /\
    (merged = false ->
       tame check_string (wild payload @ "action") = Ok (PullRequest.action k) /\
       tame check_string (wild payload @ "pull_request" @ "user" @ "username")
         = Ok (PullRequest.user_name k)) /\
    (PullRequest.action k <> "edited" ->
       exists head_branch base_branch,
         tame check_string (wild payload @ "pull_request" @ "head_branch")
           = Ok head_branch /\
         tame check_string (wild payload @ "pull_request" @ "base_branch")
           = Ok base_branch /\
         PullRequest.target_branch k = Some head_branch /\
         PullRequest.base_branch k = Some base_branch) /\
    (PullRequest.action k = "edited" ->
       PullRequest.target_branch k = None /\ PullRequest.base_branch k = None) /\
    (merged = true ->
       PullRequest.target_branch k <> None /\ PullRequest.base_branch k <> None).
Proof.
  intro H.
  apply format_pull_request_event_kwargs_inv in H
    as (merged & user_name & action & url & number & target & base & title & assignee
        & Hmerged & Hwho & _ & _ & Hheads & _ & _ & ->).
  exists merged.
  cbn [PullRequest.action PullRequest.user_name PullRequest.target_branch
       PullRequest.base_branch].
  repeat apply conj.
  - assumption.
  - intros ->. tauto.
  - intros ->. tauto.
  - intro Hne. apply String.eqb_neq in Hne. rewrite Hne in Hheads. exact Hheads.
  - intros ->. exact Hheads.
  - intros ->. destruct Hwho as [_ ->].
    destruct Hheads as (h & b & _ & _ & -> & ->). split; discriminate.
Qed.

Lemma pull_request_action_and_actor_witness :
  exists merged,
    tame check_bool
      (wild (Sample.pull_request JNull true JNull) @ "pull_request" @ "merged")
      = Ok merged /\
    (merged = true ->
       "merged" = "merged" /\
       tame check_string
         (wild (Sample.pull_request JNull true JNull)
            @ "pull_request" @ "merged_by" @ "username") = Ok "bob") /\
    (merged = false ->
       tame check_string (wild (Sample.pull_request JNull true JNull) @ "action")
         = Ok "merged" /\
       tame check_string
         (wild (Sample.pull_request JNull true JNull)
            @ "pull_request" @ "user" @ "username") = Ok "bob") /\
    ("merged" <> "edited" ->
       exists head_branch base_branch,
         tame check_string
           (wild (Sample.pull_request JNull true JNull) @ "pull_request" @ "head_branch")
           = Ok head_branch /\
         tame check_string
           (wild (Sample.pull_request JNull true JNull) @ "pull_request" @ "base_branch")
           = Ok base_branch /\
         Some "feature" = Some head_branch /\
         Some "master" = Some base_branch) /\
    ("merged" = "edited" -> Some "feature" = @None string /\ Some "master" = @None string) /\
    (merged = true -> Some "feature" <> @None string /\ Some "master" <> @None string).
Proof.
  apply (pull_request_action_and_actor (Sample.pull_request JNull true JNull) false
           {| PullRequest.user_name := "bob";
              PullRequest.action := "merged";
              PullRequest.url := "http://localhost:3000/john/try-git/pulls/1";
              PullRequest.number := Some 1;
              PullRequest.target_branch := Some "feature";
              PullRequest.base_branch := Some "master";
              PullRequest.message := None;
              PullRequest.type := None;
              PullRequest.title := None;
              PullRequest.assignee_updated := None |}).
  reflexivity.
Defined.

(** ** The assignee note of a pull request *)

(** The truth value of [payload["action"]]. *)
Definition action_truthy (payload : json) : bool :=
  match wild payload @ "action" with
  | Ok action => truthy action
  | Raise _ => false
  end.

(** An assignee exists on the payload: [pull_request.assignee] is there
    and is not null or empty. *)
Definition assignee_exists (payload : json) : bool :=
  match wild payload @ "pull_request" @ "assignee" with
  | Ok assignee => truthy assignee
  | Raise _ => false
  end.

(** The note follows the assignee alone, whatever the action is. *)
Definition assignee_note_follows_assignee : Prop :=
  forall (payload : json) (include_title : bool) (k : PullRequest.kwargs),
    format_pull_request_event_kwargs payload include_title = Ok k ->
    (PullRequest.assignee_updated k <> None <-> assignee_exists payload = true).

(** A merged pull request delivered with an empty action string and an
    assignee: the formatter returns, and passes no assignee to the
    renderer. *)
Lemma assignee_note_needs_action : ~ assignee_note_follows_assignee.
Proof.
  intro H.
  pose (payload := Sample.pull_request (JStr "") true (JDict [("login", JStr "carol")])).
  destruct (format_pull_request_event_kwargs payload false) as [k|e] eqn:Hk;
    [|discriminate].
  specialize (H payload false k Hk).
  injection Hk as <-. simpl in H.
  destruct H as [_ H]. apply H; reflexivity.
Qed.

Lemma pull_request_assignee_inv (payload : json) (assignee : option string) :
  pull_request_assignee payload = Ok assignee ->
  (assignee <> None <-> action_truthy payload = true /\ assignee_exists payload = true)
  /\ (forall login,
        assignee = Some login ->
        tame check_string (wild payload @ "pull_request" @ "assignee" @ "login")
          = Ok login).
Proof.
  unfold pull_request_assignee, action_truthy, assignee_exists. intro H.
  invert_bind H. rewrite E.
  destruct (truthy v).
  - invert_bind H. rewrite E0.
    destruct (truthy v0).
    + invert_bind H. injection H as <-. split.
      * split; [auto | discriminate].
      * intros login Hl. injection Hl as <-. rewrite E0 in E1. exact E1.
    + injection H as <-. split.
      * split; [congruence | intros [_ ?]; discriminate].
      * discriminate.
  - injection H as <-. split.
    + split; [congruence | intros [? _]; discriminate].
    + discriminate.
Qed.

(** C3, amended. On every pull-request payload the formatter accepts,
    the assignee-changed note is passed to the renderer exactly when both
    the payload's action value and its assignee are truthy (there, and
    neither null nor empty); the note is then the assignee's login. *)
Theorem assignee_note_iff_action_and_assignee
    (payload : json) (include_title : bool) (k : PullRequest.kwargs) :
  format_pull_request_event_kwargs payload include_title = Ok k ->
  (PullRequest.assignee_updated k <> None
   <-> action_truthy payload = true /\ assignee_exists payload = true)
  /\ (forall login,
        PullRequest.assignee_updated k = Some login ->
        tame check_string (wild payload @ "pull_request" @ "assignee" @ "login")
          = Ok login).
Proof.
  intro H.
  apply format_pull_request_event_kwargs_inv in H
    as (merged & user_name & action & url & number & target & base & title & assignee
        & _ & _ & _ & _ & _ & _ & Hassignee & ->).
  cbn [PullRequest.assignee_updated].
  exact (pull_request_assignee_inv payload assignee Hassignee).
Qed.

Lemma assignee_note_iff_action_and_assignee_witness :
  (Some "carol" <> None
   <-> action_truthy
         (Sample.pull_request (JStr "assigned") false (JDict [("login", JStr "carol")]))
       = true
       /\ assignee_exists
            (Sample.pull_request (JStr "assigned") false (JDict [("login", JStr "carol")]))
          = true)
  /\ (forall login,
        Some "carol" = Some login ->
        tame check_string
          (wild (Sample.pull_request (JStr "assigned") false
                   (JDict [("login", JStr "carol")]))
             @ "pull_request" @ "assignee" @ "login")
          = Ok login).
Proof.
  apply (assignee_note_iff_action_and_assignee
           (Sample.pull_request (JStr "assigned") false (JDict [("login", JStr "carol")]))
           true
           {| PullRequest.user_name := "john";
              PullRequest.action := "assigned";
              PullRequest.url := "http://localhost:3000/john/try-git/pulls/1";
              PullRequest.number := Some 1;
              PullRequest.target_branch := Some "feature";
              PullRequest.base_branch := Some "master";
              PullRequest.message := None;
              PullRequest.type := None;
              PullRequest.title := Some "Title Text for Pull Request";
              PullRequest.assignee_updated := Some "carol" |}).
  reflexivity.
Defined.

(** ** Titles in the rendered bodies *)

(** The context with another topic override. *)
Definition with_topic (helper : Helper.t) (topic : option string) : Helper.t :=
  {| Helper.payload := Helper.payload helper;
     Helper.branches := Helper.branches helper;
     Helper.user_specified_topic := topic;
     Helper.repo := Helper.repo helper;
     Helper.event_type := Helper.event_type helper;
     Helper.format_pull_request_event := Helper.format_pull_request_event helper |}.

Lemma is_not_None_iff {A : Type} (x : option A) : is_not_None x = true <-> x <> None.
Proof. destruct x; simpl; split; congruence. Qed.

Lemma format_issue_comment_event_kwargs_title
    (payload : json) (include_title : bool) (k : Issue.kwargs) :
  format_issue_comment_event_kwargs payload include_title = Ok k ->
  (Issue.title k <> None <-> include_title = true)
  /\ (forall title,
        Issue.title k = Some title ->
        tame check_string (wild payload @ "issue" @ "title") = Ok title).
Proof.
  unfold format_issue_comment_event_kwargs. intro H.
  invert_bind H. invert_bind H. rename E0 into Hcomment.
  invert_bind H. rename E0 into Hissue.
  do 6 invert_bind H. invert_bind H. rename v8 into title, E6 into Htitle.
  injection H as <-. cbn [Issue.title].
  destruct include_title.
  - apply fmap_Ok_inv in Htitle as (t & Ht & ->). split.
    + split; [reflexivity | discriminate].
    + intros t' Ht'. injection Ht' as <-.
      unfold sub at 1. unfold wild in *. rewrite Hissue. exact Ht.
  - injection Htitle as <-. split.
    + split; [congruence | discriminate].
    + discriminate.
Qed.

(** ** What the handlers can raise *)

Ltac schema_leaf :=
  solve [ apply raises_Ok
        | apply (raises_weaken schema_violation formatter_failure);
          [ exact schema_violation_failure | auto 12 with schema ] ].

Create HintDb failures.

Ltac walk_failures :=
  repeat first
    [ solve [auto with failures]
    | schema_leaf
    | apply raises_fmap
    | apply raises_bind; [ | intro ]
    | match goal with
      | |- raises _ (if ?c then _ else _) => destruct c
      | |- raises _ (let '(_, _) := ?p in _) => destruct p
      end ].

Lemma raises_first {A : Type} (l : list A) : raises formatter_failure (PyStr.first l).
Proof. destruct l; [apply raises_Raise; right; reflexivity | apply raises_Ok]. Qed.

Lemma raises_transform_commit (commit : json) :
  raises formatter_failure (transform_commit commit).
Proof. unfold transform_commit. walk_failures. apply raises_first. Qed.

#[export] Hint Resolve raises_transform_commit : failures.

Lemma raises_transform_commits (commits : list json) :
  raises formatter_failure (transform_commits commits).
Proof.
  induction commits as [|c rest IH]; simpl.
  - apply raises_Ok.
  - apply raises_bind; [apply raises_transform_commit | intro].
    apply raises_bind; [exact IH | intro; apply raises_Ok].
Qed.

#[export] Hint Resolve raises_transform_commits : failures.

Lemma raises_format_push_event_kwargs (payload : json) :
  raises formatter_failure (format_push_event_kwargs payload).
Proof.
  unfold format_push_event_kwargs, _transform_commits_list_to_common_format.
  walk_failures.
Qed.

Lemma raises_format_new_branch_event_kwargs (payload : json) :
  raises formatter_failure (format_new_branch_event_kwargs payload).
Proof. unfold format_new_branch_event_kwargs. walk_failures. Qed.

Lemma raises_format_pull_request_event_kwargs (payload : json) (include_title : bool) :
  raises formatter_failure (format_pull_request_event_kwargs payload include_title).
Proof.
  unfold format_pull_request_event_kwargs, pull_request_assignee. walk_failures.
Qed.

Lemma raises_format_issues_event_kwargs (payload : json) (include_title : bool) :
  raises formatter_failure (format_issues_event_kwargs payload include_title).
Proof. unfold format_issues_event_kwargs. walk_failures. Qed.

Lemma raises_format_issue_comment_event_kwargs (payload : json) (include_title : bool) :
  raises formatter_failure (format_issue_comment_event_kwargs payload include_title).
Proof. unfold format_issue_comment_event_kwargs. walk_failures. Qed.

Lemma raises_format_release_event_kwargs (payload : json) (include_title : bool) :
  raises formatter_failure (format_release_event_kwargs payload include_title).
Proof. unfold format_release_event_kwargs. walk_failures. Qed.

Lemma raises_pull_request_comment_kwargs (payload : json) :
  raises formatter_failure (pull_request_comment_kwargs payload).
Proof. unfold pull_request_comment_kwargs. walk_failures. Qed.

#[export] Hint Resolve raises_format_push_event_kwargs
  raises_format_new_branch_event_kwargs raises_format_pull_request_event_kwargs
  raises_format_issues_event_kwargs raises_format_issue_comment_event_kwargs
  raises_format_release_event_kwargs raises_pull_request_comment_kwargs : failures.

(** An injected pull-request formatter that behaves like the ones of the
    integrations: it fails as a formatter does and never renders an empty
    body. *)
Definition formatter_like (f : json -> bool -> result string) : Prop :=
  (forall payload include_title, raises formatter_failure (f payload include_title))
  /\ (forall payload include_title body,
        f payload include_title = Ok body -> PyStr.truthy body = true).

(** The templates and renderers of the library never yield an empty
    string. *)
Record NonEmptyOutput (lib : GitLib) : Prop := {
  branch_topic_nonempty :
    forall repo branch, PyStr.truthy (TOPIC_WITH_BRANCH_TEMPLATE lib repo branch) = true;
  info_topic_nonempty :
    forall repo type id title,
      PyStr.truthy (TOPIC_WITH_PR_OR_ISSUE_INFO_TEMPLATE lib repo type id title) = true;
  release_topic_nonempty :
    forall repo tag title,
      PyStr.truthy (TOPIC_WITH_RELEASE_TEMPLATE lib repo tag title) = true;
  create_body_nonempty :
    forall k, PyStr.truthy (get_create_branch_event_message lib k) = true;
  issue_body_nonempty :
    forall k, PyStr.truthy (get_issue_event_message lib k) = true;
  pull_request_body_nonempty :
    forall k, PyStr.truthy (get_pull_request_event_message lib k) = true;
  release_body_nonempty :
    forall k, PyStr.truthy (get_release_event_message lib k) = true
}.

Definition well_formed (helper : Helper.t) : Prop :=
  formatter_like (Helper.format_pull_request_event helper).

Lemma raises_handler
    (lib : GitLib) (event : string) (handler : Handler) (helper : Helper.t) :
  well_formed helper ->
  assoc event (GOGS_EVENT_FUNCTION_MAPPER lib) = Some handler ->
  raises formatter_failure (handler helper).
Proof.
  intros [Hf _] Hm.
  destruct (mapper_cases _ _ _ Hm) as [[_ ->]|[[_ ->]|[[_ ->]|[[_ ->]|[[_ ->]|[_ ->]]]]]].
  - unfold handle_push_event, format_push_event. walk_failures.
  - unfold handle_create_event, format_new_branch_event. walk_failures.
  - unfold handle_pull_request_event. walk_failures.
  - unfold handle_issues_event, format_issues_event. walk_failures.
  - unfold handle_issue_comment_event, issue_comment_body, format_issue_comment_event.
    walk_failures.
  - unfold handle_release_event, format_release_event. walk_failures.
Qed.

Lemma returns_fmap_truthy {A : Type} (f : A -> string) (m : result A) (body : string) :
  (forall a, PyStr.truthy (f a) = true) -> fmap f m = Ok body -> PyStr.truthy body = true.
Proof. intros Hf H. apply fmap_Ok_inv in H as (a & _ & ->). apply Hf. Qed.

(** ** The dispatcher *)

(** [handle_issue_comment_event] with the topic built, as the other
    handlers build theirs, from the repository name of the context. *)
Definition handle_issue_comment_event_with_context_repo (lib : GitLib) : Handler :=
  fun helper =>
    bt <- issue_comment_body lib helper ;;
    let '(body, topic_type) := bt in
    id <- tame check_int (wild (Helper.payload helper) @ "issue" @ "number") ;;
    title <- tame check_string (wild (Helper.payload helper) @ "issue" @ "title") ;;
    let topic_name :=
      TOPIC_WITH_PR_OR_ISSUE_INFO_TEMPLATE lib (Helper.repo helper) topic_type id title in
    Ok (Some topic_name, Some body).

(** [s.removeprefix(p)] *)
Definition removeprefix (p s : string) : string :=
  if prefix p s then substring (String.length p) (String.length s - String.length p) s
  else s.

Definition unsupported {A : Type} (r : result A) : Prop :=
  exists event, r = Raise (UnsupportedWebhookEventTypeError event).

Lemma ALL_EVENT_TYPES_eq (lib : GitLib) :
  ALL_EVENT_TYPES lib
  = ["push"; "create"; "pull_request"; "issues"; "issue_comment"; "release"].
Proof. reflexivity. Qed.

Lemma assoc_None {A : Type} (key : string) (d : list (string * A)) :
  assoc key d = None <-> ~ In key (map fst d).
Proof.
  induction d as [|[k v] d IH]; simpl.
  - tauto.
  - destruct (String.eqb_spec k key) as [->|Hne].
    + split; [discriminate | intro H; exfalso; apply H; left; reflexivity].
    + rewrite IH. tauto.
Qed.

Lemma truthy_not_empty (s : string) : PyStr.truthy s = true <-> s <> "".
Proof. destruct s; simpl; split; congruence. Qed.

Section Dispatch.

Context {UserProfile : Type}.
Variable lib : GitLib.
Variables integration_name http_header_name : string.
Variable format_pull_request : json -> bool -> result string.
Variable request : HttpRequest.
Variable user_profile : UserProfile.
Variable payload : json.
Variables branches user_specified_topic : option string.

(** The disambiguating event kind the dispatcher settles on. *)
Definition event_type_of : string :=
  match header_lookup "x-gitea-event-type" (headers request) with
  | Some v => v
  | None => "default_event_type"
  end.

(** The context the dispatcher builds once the repository name is read. *)
Definition context (repo : string) : Helper.t :=
  {| Helper.payload := payload;
     Helper.branches := branches;
     Helper.user_specified_topic := user_specified_topic;
     Helper.repo := repo;
     Helper.event_type := event_type_of;
     Helper.format_pull_request_event := format_pull_request |}.

Definition run : View (UserProfile := UserProfile) HttpResponse :=
  gogs_webhook_main lib integration_name http_header_name format_pull_request
    request user_profile payload branches user_specified_topic.

Definition sent (topic body event : string) : SendCall :=
  {| send_request := request;
     send_user_profile := user_profile;
     send_topic := topic;
     send_body := body;
     send_event := event |}.

(** What the dispatcher does with a handler's result. *)
Definition settle (event : string) (r : result NotificationResult) (log : list SendCall)
  : list SendCall * result HttpResponse :=
  match r with
  | Raise e => (log, Raise e)
  | Ok (topic_name, body) =>
      if truthy_opt topic_name && truthy_opt body
      then ((log ++ [sent (str_of topic_name) (str_of body) event])%list, Ok json_success)
      else if String.eqb event "push" then (log, Ok json_success)
           else (log, Raise (UnsupportedWebhookEventTypeError event))
  end.

Lemma extract_event_type_returns :
  extract_event_type request integration_name = Ok event_type_of.
Proof.
  unfold extract_event_type, validate_extract_webhook_http_header, event_type_of.
  destruct (header_lookup _ _); reflexivity.
Qed.

Lemma run_steps (log : list SendCall) :
  run log =
  match tame check_string (wild payload @ "repository" @ "name") with
  | Raise e => (log, Raise e)
  | Ok repo =>
      match validate_extract_webhook_http_header
              request http_header_name integration_name with
      | Raise e => (log, Raise e)
      | Ok event =>
          match assoc event (GOGS_EVENT_FUNCTION_MAPPER lib) with
          | Some handler => settle event (handler (context repo)) log
          | None => (log, Raise (UnsupportedWebhookEventTypeError event))
          end
      end
  end.
Proof.
  unfold run, gogs_webhook_main, bindV, lift, raise.
  destruct (tame check_string (wild payload @ "repository" @ "name")) as [repo|e];
    [|reflexivity].
  destruct (validate_extract_webhook_http_header request http_header_name
              integration_name) as [event|e]; [|reflexivity].
  rewrite extract_event_type_returns. fold (context repo).
  destruct (assoc event (GOGS_EVENT_FUNCTION_MAPPER lib)) as [handler|]; [|reflexivity].
  unfold settle. destruct (handler (context repo)) as [[topic_name body]|e];
    [|reflexivity].
  destruct (truthy_opt topic_name && truthy_opt body); [reflexivity|].
  destruct (String.eqb event "push"); reflexivity.
Qed.

(** A push whose branch, the ref with every occurrence of "refs/heads/"
    removed, does not pass the branch filter: the push handler returns
    neither topic nor body, nothing is delivered and the view reports
    success; success with nothing delivered occurs for no other event
    kind; and a push whose branch passes the filter is never answered
    with an absent topic and body. *)
Theorem filtered_push_is_silent :
  (forall repo ref,
     tame check_string (wild payload @ "repository" @ "name") = Ok repo ->
     validate_extract_webhook_http_header request http_header_name integration_name
       = Ok "push" ->
     tame check_string (wild payload @ "ref") = Ok ref ->
     is_branch_name_notifiable lib (PyStr.replace "refs/heads/" "" ref) branches = false ->
     handle_push_event lib (context repo) = Ok (None, None)
     /\ run [] = ([], Ok json_success))
  /\ (run [] = ([], Ok json_success) ->
      validate_extract_webhook_http_header request http_header_name integration_name
        = Ok "push")
  /\ (forall repo ref,
        tame check_string (wild payload @ "ref") = Ok ref ->
        is_branch_name_notifiable lib (PyStr.replace "refs/heads/" "" ref) branches = true ->
        handle_push_event lib (context repo) <> Ok (None, None)).
Proof.
  repeat apply conj.
  - intros repo ref Hrepo Hevent Href Hfilter.
    assert (Hh : handle_push_event lib (context repo) = Ok (None, None)).
    { unfold handle_push_event. cbn [Helper.payload Helper.branches context].
      rewrite Href. cbn [bind]. rewrite Hfilter. reflexivity. }
    split; [exact Hh|].
    rewrite run_steps, Hrepo, Hevent.
    change (assoc "push" (GOGS_EVENT_FUNCTION_MAPPER lib))
      with (Some (handle_push_event lib)).
    cbv beta iota. rewrite Hh. reflexivity.
  - rewrite run_steps.
    destruct (tame check_string (wild payload @ "repository" @ "name")) as [repo|e];
      [|discriminate].
    destruct (validate_extract_webhook_http_header request http_header_name
                integration_name) as [event|e]; [|discriminate].
    destruct (assoc event (GOGS_EVENT_FUNCTION_MAPPER lib)) as [handler|];
      [|discriminate].
    unfold settle. destruct (handler (context repo)) as [[topic body]|e]; [|discriminate].
    destruct (truthy_opt topic && truthy_opt body); [discriminate|].
    destruct (String.eqb_spec event "push") as [->|Hne]; [reflexivity | discriminate].
  - intros repo ref Href Hfilter. unfold handle_push_event.
    cbn [Helper.payload Helper.branches context].
    rewrite Href. cbn [bind]. rewrite Hfilter. cbn [negb].
    destruct (format_push_event lib payload); discriminate.
Qed.

End Dispatch.

(** ** The sample library meets the assumptions *)

Lemma truthy_append_literal (s t : string) :
  PyStr.truthy t = true -> PyStr.truthy (s ++ t) = true.
Proof. destruct s; simpl; auto. Qed.

Lemma sample_nonempty : NonEmptyOutput Sample.git.
Proof.
  constructor; intros; simpl;
    unfold Sample.create_message, Sample.issue_message, Sample.pull_request_message,
           Sample.release_message;
    apply truthy_append_literal; reflexivity.
Qed.

Lemma format_pull_request_event_formatter_like (lib : GitLib) :
  NonEmptyOutput lib -> formatter_like (format_pull_request_event lib).
Proof.
  intros Hne. split.
  - intros payload include_title. unfold format_pull_request_event.
    apply raises_fmap, raises_format_pull_request_event_kwargs.
  - intros payload include_title body H. unfold format_pull_request_event in H.
    exact (returns_fmap_truthy _ _ _ (pull_request_body_nonempty lib Hne) H).
Qed.

Lemma filtered_push_is_silent_witness :
  handle_push_event Sample.git
    (Sample.helper (Sample.push "refs/heads/main" [Sample.commit "alice" ""])
                   (Some "dev, release") None "default_event_type")
  = Ok (None, None)
  /\ api_gogs_webhook Sample.git (Sample.request "push") tt
       (Sample.push "refs/heads/main" [Sample.commit "alice" ""])
       (Some "dev, release") None []
     = ([], Ok json_success).
Proof.
  apply (proj1 (filtered_push_is_silent
                  Sample.git "Gogs" "X-Gogs-Event"
                  (format_pull_request_event Sample.git)
                  (Sample.request "push") tt
                  (Sample.push "refs/heads/main" [Sample.commit "alice" ""])
                  (Some "dev, release") None)
           "try-git" "refs/heads/main").
  - reflexivity.
  - reflexivity.
  - reflexivity.
  - reflexivity.
Defined.

(** ** Removing the ref prefix *)

(** [old in s] *)
Fixpoint occurs (old s : string) : bool :=
  prefix old s
  || match s with
     | EmptyString => false
     | String _ rest => occurs old rest
     end.

Lemma replace_without_occurrence (old new s : string) :
  occurs old s = false -> PyStr.replace old new s = s.
Proof.
  unfold PyStr.replace. induction s as [|c s IH]; [reflexivity|].
  intro H.
  change (occurs old (String c s))
    with (prefix old (String c s) || occurs old s) in H.
  apply orb_false_iff in H as [Hp Hs].
  change (PyStr.replace_from old new 0 (String c s))
    with (if prefix old (String c s)
          then new ++ PyStr.replace_from old new (Nat.pred (String.length old)) s
          else String c (PyStr.replace_from old new 0 s)).
  rewrite Hp, (IH Hs). reflexivity.
Qed.

Lemma substring_whole (s : string) : substring 0 (String.length s) s = s.
Proof. induction s as [|c s IH]; simpl; [reflexivity | now rewrite IH]. Qed.

(** On the ref of a branch whose name does not itself contain
    "refs/heads/", removing every occurrence is removing the prefix. *)
Lemma replace_is_removeprefix (branch : string) :
  occurs "refs/heads/" branch = false ->
  PyStr.replace "refs/heads/" "" ("refs/heads/" ++ branch) = branch
  /\ removeprefix "refs/heads/" ("refs/heads/" ++ branch) = branch.
Proof.
  intro H. split.
  - unfold PyStr.replace. simpl.
    replace (prefix "" branch) with true by (destruct branch; reflexivity).
    exact (replace_without_occurrence "refs/heads/" "" branch H).
  - unfold removeprefix. simpl.
    replace (prefix "" branch) with true by (destruct branch; reflexivity).
    rewrite Nat.sub_0_r. apply substring_whole.
Qed.

(** The push handler is silent whenever the ref without its
    "refs/heads/" prefix does not pass the branch filter. *)
Definition silent_when_prefix_stripped_branch_filtered : Prop :=
  forall (lib : GitLib) (helper : Helper.t) (ref : string),
    tame check_string (wild (Helper.payload helper) @ "ref") = Ok ref ->
    is_branch_name_notifiable lib (removeprefix "refs/heads/" ref) (Helper.branches helper)
      = false ->
    handle_push_event lib helper = Ok (None, None).

(** A push to the branch named "refs/heads/main" with the allow-list
    "main": without the prefix the name is "refs/heads/main", which the
    list excludes, yet the handler filters on "main" and notifies. *)
Lemma prefix_stripped_branch_not_filtered : ~ silent_when_prefix_stripped_branch_filtered.
Proof.
  intro H.
  specialize (H Sample.git
                (Sample.helper
                   (Sample.push "refs/heads/refs/heads/main" [Sample.commit "alice" ""])
                   (Some "main") None "default_event_type")
                "refs/heads/refs/heads/main" eq_refl eq_refl).
  discriminate H.
Qed.

(** * Further properties of the formatters, the handlers and the view *)

Lemma bind_Raise_inv {A B : Type} (m : result A) (k : A -> result B) (e : exn) :
  m >>= k = Raise e -> m = Raise e \/ exists a, m = Ok a /\ k a = Raise e.
Proof. destruct m as [a|e']; simpl; intro H; [right; eauto | left; congruence]. Qed.

Lemma not_schema_violation_IndexError {A : Type} (m : result A) :
  raises schema_violation m -> m <> Raise IndexError.
Proof. intros H E. specialize (H _ E). discriminate. Qed.

Lemma raises_tame_string (v : result json) :
  raises schema_violation v -> raises schema_violation (tame check_string v).
Proof. intro H. apply raises_tame; [apply raises_check_string | exact H]. Qed.

Lemma tame_string_not_IndexError (commit : json) (a b : string) :
  tame check_string (wild commit @ a @ b) <> Raise IndexError.
Proof. apply not_schema_violation_IndexError. auto 10 with schema. Qed.

Lemma tame_string_not_IndexError1 (commit : json) (a : string) :
  tame check_string (wild commit @ a) <> Raise IndexError.
Proof. apply not_schema_violation_IndexError. auto 10 with schema. Qed.

(** ** Commits *)

Lemma split_from_nil (s : string) :
  forall word, PyStr.split_from word s = [] -> word = "" /\ PyStr.all_space s = true.
Proof.
  unfold PyStr.all_space.
  induction s as [|c s IH]; intros word H; simpl in H.
  - destruct word; [auto | discriminate].
  - simpl. destruct (PyStr.is_space c) eqn:Hc.
    + destruct word; [|discriminate]. destruct (IH _ H) as [_ Hs]. auto.
    + destruct (IH _ H) as [Hw _]. exfalso. exact (snoc_not_empty _ _ Hw).
Qed.

Lemma transform_commit_IndexError (commit : json) :
  transform_commit commit = Raise IndexError -> blank_author commit.
Proof.
  unfold transform_commit. intro H.
  apply bind_Raise_inv in H as [H|(username & Hu & H)];
    [exfalso; exact (tame_string_not_IndexError _ _ _ H)|].
  apply bind_Raise_inv in H as [H|(n & Hn & H)].
  - destruct username as [|c r]; simpl in H; [|discriminate].
    apply bind_Raise_inv in H as [H|(full & Hf & H)];
      [exfalso; exact (tame_string_not_IndexError _ _ _ H)|].
    split; [exact Hu|]. exists full. split; [exact Hf|].
    destruct (PyStr.split full) as [|tok rest] eqn:Hs; [|discriminate].
    exact (proj2 (split_from_nil _ _ Hs)).
  - exfalso.
    apply bind_Raise_inv in H as [H|(i & _ & H)];
      [exact (tame_string_not_IndexError1 _ _ H)|].
    apply bind_Raise_inv in H as [H|(u & _ & H)];
      [exact (tame_string_not_IndexError1 _ _ H)|].
    apply bind_Raise_inv in H as [H|(m & _ & H)];
      [exact (tame_string_not_IndexError1 _ _ H) | discriminate].
Qed.

Lemma transform_commits_IndexError (commits : list json) :
  transform_commits commits = Raise IndexError ->
  exists before commit after,
    commits = (before ++ commit :: after)%list /\
    is_Ok (transform_commits before) = true /\
    blank_author commit.
Proof.
  induction commits as [|c rest IH]; simpl; intro H; [discriminate|].
  apply bind_Raise_inv in H as [H|(s & Hs & H)].
  - exists [], c, rest.
    split; [reflexivity|]. split; [reflexivity|]. exact (transform_commit_IndexError _ H).
  - apply bind_Raise_inv in H as [H|(ss & _ & H)]; [|discriminate].
    destruct (IH H) as (before & commit & after & -> & Hb & Hc).
    exists (c :: before), commit, after.
    split; [reflexivity|]. split; [|exact Hc].
    simpl. rewrite Hs. simpl.
    destruct (transform_commits before); [reflexivity | discriminate].
Qed.

(** X1. The commit transformation stops with an [IndexError] exactly
    when the commit list has a commit whose author has an empty username
    and a full name without any non-space character, and every commit
    before it is transformed. *)
Theorem index_error_iff_blank_author (commits : json) :
  _transform_commits_list_to_common_format (wild commits) = Raise IndexError
  <-> exists before commit after,
        commits = JList (before ++ commit :: after) /\
        is_Ok (transform_commits before) = true /\
        blank_author commit.
Proof.
  unfold _transform_commits_list_to_common_format, wild. cbn [bind]. split.
  - intro H. destruct commits; simpl in H; try discriminate.
    destruct (transform_commits_IndexError _ H) as (before & commit & after & -> & Hb & Hc).
    eauto 6.
  - intros (before & commit & after & -> & Hb & Hc). simpl.
    exact (transform_commits_blank_author before after commit Hb Hc).
Qed.

(** X2. A commit whose author has a non-empty username is summarised
    under that username whatever the author's full name is, also when the
    full name is missing or is not a string. *)
Theorem commit_username_suffices (commit : json) (username id url message : string) :
  tame check_string (wild commit @ "author" @ "username") = Ok username ->
  username <> "" ->
  tame check_string (wild commit @ "id") = Ok id ->
  tame check_string (wild commit @ "url") = Ok url ->
  tame check_string (wild commit @ "message") = Ok message ->
  transform_commit commit
  = Ok {| name := username; sha := id; url := url; message := message |}.
Proof.
  intros Hu Hne Hi Hurl Hm. unfold transform_commit.
  rewrite Hu. cbn [bind]. destruct username as [|c r]; [congruence|].
  cbn [PyStr.truthy bind]. rewrite Hi. cbn [bind]. rewrite Hurl. cbn [bind].
  rewrite Hm. reflexivity.
Qed.

Lemma commit_username_suffices_witness :
  transform_commit
    (JDict [("id", JStr "abc123"); ("message", JStr "fix bug"); ("url", JStr "u");
            ("author", JDict [("username", JStr "alice"); ("name", JNull)])])
  = Ok {| name := "alice"; sha := "abc123"; url := "u"; message := "fix bug" |}.
Proof.
  apply commit_username_suffices.
  - reflexivity.
  - discriminate.
  - reflexivity.
  - reflexivity.
  - reflexivity.
Defined.

(** ** Failures of the formatters *)

Ltac walk_schema :=
  repeat first
    [ solve [auto 12 with schema]
    | apply raises_fmap
    | apply raises_bind; [ | intro ]
    | match goal with
      | |- raises _ (if ?c then _ else _) => destruct c
      | |- raises _ (let '(_, _) := ?p in _) => destruct p
      end ].

Lemma schema_format_new_branch_event_kwargs (payload : json) :
  raises schema_violation (format_new_branch_event_kwargs payload).
Proof. unfold format_new_branch_event_kwargs. walk_schema. Qed.

Lemma schema_format_pull_request_event_kwargs (payload : json) (include_title : bool) :
  raises schema_violation (format_pull_request_event_kwargs payload include_title).
Proof. unfold format_pull_request_event_kwargs, pull_request_assignee. walk_schema. Qed.

Lemma schema_format_issues_event_kwargs (payload : json) (include_title : bool) :
  raises schema_violation (format_issues_event_kwargs payload include_title).
Proof. unfold format_issues_event_kwargs. walk_schema. Qed.

Lemma schema_format_issue_comment_event_kwargs (payload : json) (include_title : bool) :
  raises schema_violation (format_issue_comment_event_kwargs payload include_title).
Proof. unfold format_issue_comment_event_kwargs. walk_schema. Qed.

Lemma schema_format_release_event_kwargs (payload : json) (include_title : bool) :
  raises schema_violation (format_release_event_kwargs payload include_title).
Proof. unfold format_release_event_kwargs. walk_schema. Qed.

Lemma schema_pull_request_comment_kwargs (payload : json) :
  raises schema_violation (pull_request_comment_kwargs payload).
Proof. unfold pull_request_comment_kwargs. walk_schema. Qed.

#[export] Hint Resolve schema_format_new_branch_event_kwargs
  schema_format_pull_request_event_kwargs schema_format_issues_event_kwargs
  schema_format_issue_comment_event_kwargs schema_format_release_event_kwargs
  schema_pull_request_comment_kwargs : schema.

(** X3. Only the push handler can stop with an [IndexError]: every
    other handler of the table, run with a pull-request formatter that
    raises nothing but schema violations, raises nothing but a schema
    violation. *)
Theorem only_push_raises_IndexError
    (lib : GitLib) (event : string) (handler : Handler) (helper : Helper.t) (e : exn) :
  (forall payload include_title,
     raises schema_violation
       (Helper.format_pull_request_event helper payload include_title)) ->
  assoc event (GOGS_EVENT_FUNCTION_MAPPER lib) = Some handler ->
  event <> "push" ->
  handler helper = Raise e ->
  e = ValidationError.
Proof.
  intros Hf Hm Hpush. revert e. change (raises schema_violation (handler helper)).
  destruct (mapper_cases _ _ _ Hm) as [[-> _]|[[_ ->]|[[_ ->]|[[_ ->]|[[_ ->]|[_ ->]]]]]];
    [congruence| | | | |].
  - unfold handle_create_event, format_new_branch_event. walk_schema.
  - unfold handle_pull_request_event. walk_schema.
  - unfold handle_issues_event, format_issues_event. walk_schema.
  - unfold handle_issue_comment_event, issue_comment_body, format_issue_comment_event.
    walk_schema.
  - unfold handle_release_event, format_release_event. walk_schema.
Qed.

Lemma only_push_raises_IndexError_witness : ValidationError = ValidationError.
Proof.
  apply (only_push_raises_IndexError Sample.git "release" (handle_release_event Sample.git)
           (Sample.helper Sample.create None None "default_event_type")).
  - intros payload include_title. unfold Sample.helper, Helper.format_pull_request_event,
      format_pull_request_event.
    apply raises_fmap, schema_format_pull_request_event_kwargs.
  - reflexivity.
  - discriminate.
  - reflexivity.
Defined.

(** X4. A pull-request payload without an [action] key is never
    formatted: the formatter stops with a schema violation, also for a
    merged pull request, whose rendering does not use the action. *)
Theorem pull_request_needs_action_key
    (payload : json) (include_title : bool) (e : exn) :
  wild payload @ "action" = Raise e ->
  format_pull_request_event_kwargs payload include_title = Raise ValidationError.
Proof.
  intro Ha.
  destruct (format_pull_request_event_kwargs payload include_title) as [k|e'] eqn:Hk.
  - apply format_pull_request_event_kwargs_inv in Hk
      as (merged & user_name & action & url & number & target & base & title & assignee
          & _ & _ & _ & _ & _ & _ & Hassignee & _).
    unfold pull_request_assignee in Hassignee. rewrite Ha in Hassignee. discriminate.
  - f_equal. exact (schema_format_pull_request_event_kwargs _ _ _ Hk).
Qed.

Lemma pull_request_needs_action_key_witness :
  format_pull_request_event_kwargs
    (JDict [("pull_request",
             JDict [("number", JInt 1);
                    ("title", JStr "Title Text for Pull Request");
                    ("html_url", JStr "http://localhost:3000/john/try-git/pulls/1");
                    ("head_branch", JStr "feature"); ("base_branch", JStr "master");
                    ("merged", JBool true);
                    ("merged_by", JDict [("username", JStr "bob")]);
                    ("assignee", JNull)])])
    false
  = Raise ValidationError.
Proof.
  apply (pull_request_needs_action_key _ false ValidationError). reflexivity.
Defined.

(** ** The issues formatter *)

Lemma format_issues_event_kwargs_inv
    (payload : json) (include_title : bool) (k : Issue.kwargs) :
  format_issues_event_kwargs payload include_title = Ok k ->
  exists issue_nr assignee stringified action user_name html_url message title,
    tame check_int (wild payload @ "issue" @ "number") = Ok issue_nr /\
    wild payload @ "issue" @ "assignee" = Ok assignee /\
    (if truthy assignee
     then exists login, tame check_string (wild assignee @ "login") = Ok login /\
                        stringified = Some login
     else stringified = None) /\
    tame check_string (wild payload @ "action") = Ok action /\
    tame check_string (wild payload @ "sender" @ "login") = Ok user_name /\
    tame check_string (wild payload @ "repository" @ "html_url") = Ok html_url /\
    tame check_string (wild payload @ "issue" @ "body") = Ok message /\
    (if include_title
     then exists t, tame check_string (wild payload @ "issue" @ "title") = Ok t /\
                    title = Some t
     else title = None) /\
    k = {| Issue.user_name := user_name;
           Issue.action := action;
           Issue.url := get_issue_url html_url issue_nr;
           Issue.number := Some issue_nr;
           Issue.message := Some message;
           Issue.assignee := stringified;
           Issue.title := title;
           Issue.assignee_updated :=
             if String.eqb action "assigned" then stringified else None |}.
Proof.
  unfold format_issues_event_kwargs. intro H.
  invert_bind H. rename v into issue_nr, E into Hnr.
  invert_bind H. rename v into assignee, E into Hassignee.
  invert_bind H. rename v into stringified, E into Hstr.
  invert_bind H. rename v into action, E into Haction.
  invert_bind H. rename v into user_name, E into Huser.
  invert_bind H. rename v into action', E into Haction'.
  invert_bind H. rename v into html_url, E into Hhtml.
  invert_bind H. rename v into message, E into Hmessage.
  invert_bind H. rename v into title, E into Htitle.
  injection H as <-.
  assert (action' = action) as -> by congruence.
  exists issue_nr, assignee, stringified, action, user_name, html_url, message, title.
  repeat apply conj; try assumption; try reflexivity.
  - destruct (truthy assignee).
    + apply fmap_Ok_inv in Hstr as (login & Hl & ->). eauto.
    + injection Hstr as <-. reflexivity.
  - destruct include_title.
    + apply fmap_Ok_inv in Htitle as (t & Ht & ->). eauto.
    + injection Htitle as <-. reflexivity.
Qed.

(** X5. On every issues payload the formatter accepts, the assignee's
    login is passed as [assignee] exactly when the issue has a truthy
    assignee, and as [assignee_updated] exactly when in addition the
    action is "assigned"; the url is the issue url of the repository and
    the issue number, and the title is passed exactly when
    [include_title] is set. *)
Theorem issues_assignee_and_title
    (payload : json) (include_title : bool) (k : Issue.kwargs) :
  format_issues_event_kwargs payload include_title = Ok k ->
  exists assignee issue_nr html_url,
    wild payload @ "issue" @ "assignee" = Ok assignee /\
    tame check_int (wild payload @ "issue" @ "number") = Ok issue_nr /\
    tame check_string (wild payload @ "repository" @ "html_url") = Ok html_url /\
    tame check_string (wild payload @ "action") = Ok (Issue.action k) /\
    (Issue.assignee k <> None <-> truthy assignee = true) /\
    (Issue.assignee_updated k <> None
     <-> Issue.action k = "assigned" /\ truthy assignee = true) /\
    (forall login,
       Issue.assignee k = Some login ->
       tame check_string (wild assignee @ "login") = Ok login) /\
    (forall login,
       Issue.assignee_updated k = Some login -> Issue.assignee k = Some login) /\
    Issue.url k = get_issue_url html_url issue_nr /\
    Issue.number k = Some issue_nr /\
    (Issue.title k <> None <-> include_title = true) /\
    (forall title,
       Issue.title k = Some title ->
       tame check_string (wild payload @ "issue" @ "title") = Ok title).
Proof.
  intro H.
  apply format_issues_event_kwargs_inv in H
    as (issue_nr & assignee & stringified & action & user_name & html_url & message
        & title & Hnr & Hassignee & Hstr & Haction & _ & Hhtml & _ & Htitle & ->).
  exists assignee, issue_nr, html_url.
  cbn [Issue.action Issue.assignee Issue.assignee_updated Issue.url Issue.number
       Issue.title].
  split; [assumption|]. split; [assumption|]. split; [assumption|].
  split; [assumption|].
  assert (Hs : (stringified <> None <-> truthy assignee = true)
               /\ (forall login, stringified = Some login ->
                                 tame check_string (wild assignee @ "login") = Ok login)).
  { destruct (truthy assignee).
    - destruct Hstr as (login & Hl & ->). split.
      + split; [reflexivity | discriminate].
      + intros l Hl'. injection Hl' as <-. exact Hl.
    - subst stringified. split.
      + split; [congruence | discriminate].
      + discriminate. }
  destruct Hs as [Hs1 Hs2].
  split; [exact Hs1|]. split.
  { destruct (String.eqb_spec action "assigned") as [->|Hne].
    - rewrite Hs1. tauto.
    - split; [congruence | intros [? _]; contradiction]. }
  split; [exact Hs2|]. split.
  { intros login. destruct (String.eqb action "assigned"); [auto | discriminate]. }
  split; [reflexivity|]. split; [reflexivity|].
  destruct include_title.
  - destruct Htitle as (t & Ht & ->). split.
    + split; [reflexivity | discriminate].
    + intros t' Ht'. injection Ht' as <-. exact Ht.
  - subst title. split.
    + split; [congruence | discriminate].
    + discriminate.
Qed.

(** An issue event as Gogs delivers it. *)
Definition sample_issues (action : string) (assignee : json) : json :=
  JDict [("action", JStr action);
         ("issue",
          JDict [("number", JInt 3); ("title", JStr "Test issue");
                 ("body", JStr "Test body"); ("assignee", assignee)]);
         ("repository", Sample.repository);
         ("sender", JDict [("login", JStr "kostekIV")])].

Lemma issues_assignee_and_title_witness :
  Some "carol" <> None
  <-> "assigned" = "assigned" /\ truthy (JDict [("login", JStr "carol")]) = true.
Proof.
  destruct (issues_assignee_and_title
              (sample_issues "assigned" (JDict [("login", JStr "carol")])) true
              {| Issue.user_name := "kostekIV";
                 Issue.action := "assigned";
                 Issue.url := "http://localhost:3000/john/try-git/issues/3";
                 Issue.number := Some 3;
                 Issue.message := Some "Test body";
                 Issue.assignee := Some "carol";
                 Issue.title := Some "Test issue";
                 Issue.assignee_updated := Some "carol" |}
              eq_refl)
    as (assignee & issue_nr & html_url & Ha & _ & _ & _ & _ & H & _).
  injection Ha as <-. exact H.
Defined.



(** ** Comments *)

Lemma format_issue_comment_event_kwargs_inv
    (payload : json) (include_title : bool) (k : Issue.kwargs) :
  format_issue_comment_event_kwargs payload include_title = Ok k ->
  exists action comment_url user_name html_url number message,
    tame check_string (wild payload @ "action") = Ok action /\
    tame check_string (wild payload @ "comment" @ "html_url") = Ok comment_url /\
    tame check_string (wild payload @ "sender" @ "login") = Ok user_name /\
    tame check_string (wild payload @ "repository" @ "html_url") = Ok html_url /\
    tame check_int (wild payload @ "issue" @ "number") = Ok number /\
    tame check_string (wild payload @ "comment" @ "body") = Ok message /\
    Issue.user_name k = user_name /\
    Issue.action k = comment_action_text action comment_url /\
    Issue.url k = get_issue_url html_url number /\
    Issue.number k = Some number /\
    Issue.message k = Some message /\
    Issue.assignee k = None /\
    Issue.assignee_updated k = None.
Proof.
  unfold format_issue_comment_event_kwargs. intro H.
  invert_bind H. rename v into action, E into Haction.
  invert_bind H. rename v into comment, E into Hcomment.
  invert_bind H. rename v into issue, E into Hissue.
  invert_bind H. rename v into comment_url, E into Hcurl.
  invert_bind H. rename v into user_name, E into Huser.
  invert_bind H. rename v into html_url, E into Hhtml.
  invert_bind H. rename v into number, E into Hnumber.
  invert_bind H. rename v into number', E into Hnumber'.
  invert_bind H. rename v into message, E into Hmessage.
  invert_bind H. injection H as <-.
  assert (number' = number) as -> by congruence.
  exists action, comment_url, user_name, html_url, number, message.
  rewrite Hcomment, Hissue.
  cbn [Issue.user_name Issue.action Issue.url Issue.number Issue.message
       Issue.assignee Issue.assignee_updated].
  repeat apply conj; solve [assumption | reflexivity].
Qed.

Lemma pull_request_comment_kwargs_inv (payload : json) (k : PullRequest.kwargs) :
  pull_request_comment_kwargs payload = Ok k ->
  exists action comment_url user_name url number message title,
    tame check_string (wild payload @ "action") = Ok action /\
    tame check_string (wild payload @ "comment" @ "html_url") = Ok comment_url /\
    tame check_string (wild payload @ "sender" @ "login") = Ok user_name /\
    tame check_string (wild payload @ "issue" @ "html_url") = Ok url /\
    tame check_int (wild payload @ "issue" @ "number") = Ok number /\
    tame check_string (wild payload @ "comment" @ "body") = Ok message /\
    tame check_string (wild payload @ "issue" @ "title") = Ok title /\
    k = {| PullRequest.user_name := user_name;
           PullRequest.action := comment_action_text action comment_url;
           PullRequest.url := url;
           PullRequest.number := Some number;
           PullRequest.target_branch := None;
           PullRequest.base_branch := None;
           PullRequest.message := Some message;
           PullRequest.type := Some "PR";
           PullRequest.title := Some title;
           PullRequest.assignee_updated := None |}.
Proof.
  unfold pull_request_comment_kwargs. intro H.
  do 7 invert_bind H. injection H as <-.
  exists v, v0, v1, v2, v3, v4, v5. repeat apply conj; solve [assumption | reflexivity].
Qed.

(** X7. On a payload both accept, the issue-comment formatter and the
    inline rendering of a pull-request comment pass the same actor, the
    same action text, the same number and the same comment body to their
    renderers; the action text is "[commented](url) on" for the action
    "created" and "<action> a [comment](url) on" otherwise; the issue
    formatter links to the issue url built from the repository, the
    pull-request rendering to the issue's own url, and neither passes an
    assignee. *)
Theorem comment_renderings_agree
    (payload : json) (include_title : bool) (ki : Issue.kwargs) (kp : PullRequest.kwargs) :
  format_issue_comment_event_kwargs payload include_title = Ok ki ->
  pull_request_comment_kwargs payload = Ok kp ->
  exists action comment_url html_url number own_url,
    tame check_string (wild payload @ "action") = Ok action /\
    tame check_string (wild payload @ "comment" @ "html_url") = Ok comment_url /\
    tame check_string (wild payload @ "repository" @ "html_url") = Ok html_url /\
    tame check_int (wild payload @ "issue" @ "number") = Ok number /\
    tame check_string (wild payload @ "issue" @ "html_url") = Ok own_url /\
    Issue.action ki
    = (if String.eqb action "created" then "[commented]" else action ++ " a [comment]")
      ++ "(" ++ comment_url ++ ") on" /\
    PullRequest.action kp = Issue.action ki /\
    PullRequest.user_name kp = Issue.user_name ki /\
    PullRequest.number kp = Issue.number ki /\
    PullRequest.message kp = Issue.message ki /\
    Issue.url ki = get_issue_url html_url number /\
    PullRequest.url kp = own_url /\
    Issue.assignee ki = None /\
    Issue.assignee_updated ki = None /\
    PullRequest.assignee_updated kp = None.
Proof.
  intros Hi Hp.
  apply format_issue_comment_event_kwargs_inv in Hi
    as (action & comment_url & user_name & html_url & number & message
        & Ha & Hc & Hu & Hh & Hn & Hm & E1 & E2 & E3 & E4 & E5 & E6 & E7).
  apply pull_request_comment_kwargs_inv in Hp
    as (action' & comment_url' & user_name' & own_url & number' & message' & title
        & Ha' & Hc' & Hu' & Ho & Hn' & Hm' & _ & ->).
  assert (action' = action) as -> by congruence.
  assert (comment_url' = comment_url) as -> by congruence.
  assert (user_name' = user_name) as -> by congruence.
  assert (number' = number) as -> by congruence.
  assert (message' = message) as -> by congruence.
  exists action, comment_url, html_url, number, own_url.
  cbn [PullRequest.action PullRequest.user_name PullRequest.number PullRequest.message
       PullRequest.url PullRequest.assignee_updated].
  rewrite E1, E2, E3, E4, E5, E6, E7.
  repeat apply conj; solve [assumption | reflexivity].
Qed.

Lemma comment_renderings_agree_witness :
  exists action comment_url : string,
    "kostekIV edited a [comment](" ++ comment_url ++ ") on"
    = "kostekIV " ++ (if String.eqb action "created" then "[commented]"
                      else action ++ " a [comment]")
      ++ "(" ++ comment_url ++ ") on".
Proof.
  destruct (comment_renderings_agree (Sample.issue_comment "edited") false
              {| Issue.user_name := "kostekIV";
                 Issue.action :=
                   "edited a [comment](http://localhost:3000/john/try-git/issues/3#issuecomment-3) on";
                 Issue.url := "http://localhost:3000/john/try-git/issues/3";
                 Issue.number := Some 3;
                 Issue.message := Some "Test comment";
                 Issue.assignee := None;
                 Issue.title := None;
                 Issue.assignee_updated := None |}
              {| PullRequest.user_name := "kostekIV";
                 PullRequest.action :=
                   "edited a [comment](http://localhost:3000/john/try-git/issues/3#issuecomment-3) on";
                 PullRequest.url := "http://localhost:3000/john/try-git/pulls/3";
                 PullRequest.number := Some 3;
                 PullRequest.target_branch := None;
                 PullRequest.base_branch := None;
                 PullRequest.message := Some "Test comment";
                 PullRequest.type := Some "PR";
                 PullRequest.title := Some "Test issue";
                 PullRequest.assignee_updated := None |}
              eq_refl eq_refl)
    as (action & comment_url & html_url & number & own_url & Ha & Hc & _).
  injection Ha as <-. injection Hc as <-.
  exists "edited", "http://localhost:3000/john/try-git/issues/3#issuecomment-3".
  reflexivity.
Defined.

Tactic Notation "open_bind" hyp(H) "as" ident(x) :=
  let E := fresh "E" in
  apply bind_Ok_inv in H as (x & E & H).

(** ** What the handlers return *)

(** X8. The create handler returns exactly when the ref, the
    repository url and the sender's username are strings; the ref is used
    as it is, without removing any prefix, in the topic, in the branch
    name and in the browse url [{html_url}/src/{ref}]. *)
Theorem create_event_uses_raw_ref
    (lib : GitLib) (helper : Helper.t) (topic body : option string) :
  handle_create_event lib helper = Ok (topic, body)
  <-> exists ref html_url user_name,
        tame check_string (wild (Helper.payload helper) @ "ref") = Ok ref /\
        tame check_string (wild (Helper.payload helper) @ "repository" @ "html_url")
          = Ok html_url /\
        tame check_string (wild (Helper.payload helper) @ "sender" @ "username")
          = Ok user_name /\
        topic = Some (TOPIC_WITH_BRANCH_TEMPLATE lib (Helper.repo helper) ref) /\
        body = Some (get_create_branch_event_message lib
                       {| CreateBranch.user_name := user_name;
                          CreateBranch.url := html_url ++ "/src/" ++ ref;
                          CreateBranch.branch_name := ref |}).
Proof.
  unfold handle_create_event, format_new_branch_event, format_new_branch_event_kwargs.
  split.
  - intro H. open_bind H as b. rename E into Hbody. open_bind H as ref'.
    injection H as <- <-.
    apply fmap_Ok_inv in Hbody as (k & Hk & ->).
    open_bind Hk as ref. open_bind Hk as html_url.
    open_bind Hk as user_name. injection Hk as <-.
    assert (ref' = ref) as -> by congruence.
    exists ref, html_url, user_name. auto.
  - intros (ref & html_url & user_name & Hr & Hh & Hu & -> & ->).
    rewrite Hr. cbn [bind fmap]. rewrite Hh. cbn [bind]. rewrite Hu. reflexivity.
Qed.

(** X9. The push handler returns a topic and a body exactly when the
    ref is a string, the ref with "refs/heads/" removed passes the branch
    filter and the push formatter accepts the payload; topic and body
    then name the same branch. *)
Theorem push_event_topic_and_body
    (lib : GitLib) (helper : Helper.t) (topic body : string) :
  handle_push_event lib helper = Ok (Some topic, Some body)
  <-> exists ref k,
        tame check_string (wild (Helper.payload helper) @ "ref") = Ok ref /\
        is_branch_name_notifiable lib (PyStr.replace "refs/heads/" "" ref)
          (Helper.branches helper) = true /\
        format_push_event_kwargs (Helper.payload helper) = Ok k /\
        PushCommits.branch_name k = PyStr.replace "refs/heads/" "" ref /\
        topic = TOPIC_WITH_BRANCH_TEMPLATE lib (Helper.repo helper)
                  (PushCommits.branch_name k) /\
        body = get_push_commits_event_message lib k.
Proof.
  unfold handle_push_event, format_push_event. split.
  - intro H. invert_bind H. rename v into ref, E into Href.
    destruct (is_branch_name_notifiable lib _ _) eqn:Hfilter; simpl in H; [|discriminate].
    invert_bind H. injection H as <- <-.
    apply fmap_Ok_inv in E as (k & Hk & ->).
    exists ref, k.
    assert (Hb : PushCommits.branch_name k = PyStr.replace "refs/heads/" "" ref).
    { unfold format_push_event_kwargs in Hk.
      open_bind Hk as user. open_bind Hk as compare. open_bind Hk as ref'.
      open_bind Hk as commits. injection Hk as <-. cbn [PushCommits.branch_name]. congruence. }
    rewrite Hb. auto 10.
  - intros (ref & k & Href & Hfilter & Hk & Hb & -> & ->).
    rewrite Href. cbn [bind]. rewrite Hfilter. cbn [negb]. rewrite Hk, Hb. reflexivity.
Qed.

(** X10. With the Gogs formatter, the topic of a pull-request event is
    keyed on [pull_request.id] while the body carries
    [pull_request.number]; the body restates the title exactly when a
    topic override was supplied, and neither a message nor a type is
    passed to the renderer. *)
Theorem pull_request_event_topic_and_body
    (lib : GitLib) (helper : Helper.t) (topic body : option string) :
  Helper.format_pull_request_event helper = format_pull_request_event lib ->
  handle_pull_request_event lib helper = Ok (topic, body) ->
  exists id number title k,
    tame check_int (wild (Helper.payload helper) @ "pull_request" @ "id") = Ok id /\
    tame check_int (wild (Helper.payload helper) @ "pull_request" @ "number")
      = Ok number /\
    tame check_string (wild (Helper.payload helper) @ "pull_request" @ "title")
      = Ok title /\
    topic = Some (TOPIC_WITH_PR_OR_ISSUE_INFO_TEMPLATE lib (Helper.repo helper)
                    "PR" id title) /\
    format_pull_request_event_kwargs (Helper.payload helper)
      (is_not_None (Helper.user_specified_topic helper)) = Ok k /\
    body = Some (get_pull_request_event_message lib k) /\
    PullRequest.number k = Some number /\
    PullRequest.title k
    = (if is_not_None (Helper.user_specified_topic helper) then Some title else None) /\
    PullRequest.message k = None /\
    PullRequest.type k = None.
Proof.
  intros Hf H. unfold handle_pull_request_event in H. rewrite Hf in H.
  open_bind H as b. rename E into Hbody.
  open_bind H as id. rename E into Hid.
  open_bind H as title. rename E into Htitle.
  injection H as <- <-.
  unfold format_pull_request_event in Hbody.
  apply fmap_Ok_inv in Hbody as (k & Hk & ->).
  pose proof Hk as Hk'.
  apply format_pull_request_event_kwargs_inv in Hk'
    as (merged & user_name & action & url & number & target & base & title' & assignee
        & _ & _ & _ & Hnumber & _ & Ht & _ & ->).
  exists id, number, title. eexists.
  repeat apply conj;
    [ exact Hid | exact Hnumber | exact Htitle | reflexivity | exact Hk
    | reflexivity | reflexivity | | reflexivity | reflexivity ].
  cbn [PullRequest.title].
  destruct (is_not_None (Helper.user_specified_topic helper)).
  - destruct Ht as (t & Ht & ->). congruence.
  - exact Ht.
Qed.

Lemma pull_request_event_topic_and_body_witness :
  exists id number : Z,
    tame check_int
      (wild (Sample.pull_request (JStr "opened") false JNull) @ "pull_request" @ "id")
      = Ok id /\
    tame check_int
      (wild (Sample.pull_request (JStr "opened") false JNull) @ "pull_request" @ "number")
      = Ok number /\
    id <> number.
Proof.
  destruct (pull_request_event_topic_and_body Sample.git
              (Sample.helper (Sample.pull_request (JStr "opened") false JNull)
                             None None "default_event_type")
              (Some "try-git / PR #1349 Title Text for Pull Request")
              (Some "john opened [PR #1](http://localhost:3000/john/try-git/pulls/1) from feature to master")
              eq_refl eq_refl)
    as (id & number & title & k & Hid & Hnumber & _).
  exists id, number. repeat split; try assumption.
  injection Hid as <-. injection Hnumber as <-. discriminate.
Defined.

(** X11. The release handler returns exactly when the five fields it
    reads are strings; topic and body come from the tag name and the
    release name, and the topic override plays no part. *)
Theorem release_event_topic_and_body
    (lib : GitLib) (helper : Helper.t) (topic body : option string) :
  handle_release_event lib helper = Ok (topic, body)
  <-> exists user_name action tagname release_name url,
        tame check_string
          (wild (Helper.payload helper) @ "release" @ "author" @ "username")
          = Ok user_name /\
        tame check_string (wild (Helper.payload helper) @ "action") = Ok action /\
        tame check_string (wild (Helper.payload helper) @ "release" @ "tag_name")
          = Ok tagname /\
        tame check_string (wild (Helper.payload helper) @ "release" @ "name")
          = Ok release_name /\
        tame check_string (wild (Helper.payload helper) @ "repository" @ "html_url")
          = Ok url /\
        topic = Some (TOPIC_WITH_RELEASE_TEMPLATE lib (Helper.repo helper)
                        tagname release_name) /\
        body = Some (get_release_event_message lib
                       {| Release.user_name := user_name;
                          Release.action := action;
                          Release.tagname := tagname;
                          Release.release_name := release_name;
                          Release.url := url |}).
Proof.
  unfold handle_release_event, format_release_event, format_release_event_kwargs.
  split.
  - intro H. open_bind H as b. rename E into Hbody.
    open_bind H as tag'. open_bind H as name'.
    injection H as <- <-.
    apply fmap_Ok_inv in Hbody as (k & Hk & ->).
    open_bind Hk as user_name. open_bind Hk as action.
    open_bind Hk as tagname. open_bind Hk as release_name.
    open_bind Hk as url. injection Hk as <-.
    assert (tag' = tagname) as -> by congruence.
    assert (name' = release_name) as -> by congruence.
    exists user_name, action, tagname, release_name, url. auto 10.
  - intros (user_name & action & tagname & release_name & url
            & Hu & Ha & Ht & Hn & Hurl & -> & ->).
    rewrite Hu. cbn [bind fmap]. rewrite Ha. cbn [bind]. rewrite Ht. cbn [bind].
    rewrite Hn. cbn [bind]. rewrite Hurl. reflexivity.
Qed.

(** ** What each handler reads from its context *)

Definition with_event_type (helper : Helper.t) (event_type : string) : Helper.t :=
  {| Helper.payload := Helper.payload helper;
     Helper.branches := Helper.branches helper;
     Helper.user_specified_topic := Helper.user_specified_topic helper;
     Helper.repo := Helper.repo helper;
     Helper.event_type := event_type;
     Helper.format_pull_request_event := Helper.format_pull_request_event helper |}.

Definition with_branches (helper : Helper.t) (branches : option string) : Helper.t :=
  {| Helper.payload := Helper.payload helper;
     Helper.branches := branches;
     Helper.user_specified_topic := Helper.user_specified_topic helper;
     Helper.repo := Helper.repo helper;
     Helper.event_type := Helper.event_type helper;
     Helper.format_pull_request_event := Helper.format_pull_request_event helper |}.

(** X12. Of the six handlers only the comment handler looks at the
    disambiguating event kind, only the push handler looks at the branch
    allow-list, and the push, create and release handlers do not look at
    the topic override. *)
Theorem handlers_read_their_own_context
    (lib : GitLib) (event : string) (handler : Handler) (helper : Helper.t) :
  assoc event (GOGS_EVENT_FUNCTION_MAPPER lib) = Some handler ->
  (event <> "issue_comment" ->
   forall event_type, handler (with_event_type helper event_type) = handler helper)
  /\ (event <> "push" ->
      forall branches, handler (with_branches helper branches) = handler helper)
  /\ (event = "push" \/ event = "create" \/ event = "release" ->
      forall topic, handler (with_topic helper topic) = handler helper).
Proof.
  intro Hm.
  destruct (mapper_cases _ _ _ Hm) as [[-> ->]|[[-> ->]|[[-> ->]|[[-> ->]|[[-> ->]|[-> ->]]]]]];
    repeat apply conj;
    solve [ intros; reflexivity
          | intro H; exfalso; apply H; reflexivity
          | intros [H|[H|H]]; discriminate H ].
Qed.

Lemma handlers_read_their_own_context_witness :
  handle_push_event Sample.git
    (with_topic
       (Sample.helper (Sample.push "refs/heads/main" [Sample.commit "alice" ""])
                      None None "default_event_type")
       (Some "notifications"))
  = handle_push_event Sample.git
      (Sample.helper (Sample.push "refs/heads/main" [Sample.commit "alice" ""])
                     None None "default_event_type").
Proof.
  apply (proj2 (proj2 (handlers_read_their_own_context Sample.git "push"
                         (handle_push_event Sample.git)
                         (Sample.helper
                            (Sample.push "refs/heads/main" [Sample.commit "alice" ""])
                            None None "default_event_type")
                         eq_refl))).
  left. reflexivity.
Defined.

(** ** The view *)

Section View.

Context {UserProfile : Type}.
Variable lib : GitLib.
Variables integration_name http_header_name : string.
Variable format_pull_request : json -> bool -> result string.
Variable request : HttpRequest.
Variable user_profile : UserProfile.
Variable payload : json.
Variables branches user_specified_topic : option string.

Lemma main_steps (log : list SendCall) :
  gogs_webhook_main lib integration_name http_header_name format_pull_request
    request user_profile payload branches user_specified_topic log =
  match tame check_string (wild payload @ "repository" @ "name") with
  | Raise e => (log, Raise e)
  | Ok repo =>
      match validate_extract_webhook_http_header
              request http_header_name integration_name with
      | Raise e => (log, Raise e)
      | Ok event =>
          match assoc event (GOGS_EVENT_FUNCTION_MAPPER lib) with
          | Some handler =>
              settle request user_profile event
                (handler (context format_pull_request request payload branches
                            user_specified_topic repo))
                log
          | None => (log, Raise (UnsupportedWebhookEventTypeError event))
          end
      end
  end.
Proof.
  exact (run_steps lib integration_name http_header_name format_pull_request
           request user_profile payload branches user_specified_topic log).
Qed.

(** X13. Whatever the request and the log so far, the view leaves the
    log as it is or appends exactly one message to it; it appends only
    when it reports success, and then topic and body are non-empty and
    the message is tagged with the event kind of the header. *)
Theorem view_delivers_at_most_once
    (log log' : list SendCall) (r : result HttpResponse) :
  gogs_webhook_main lib integration_name http_header_name format_pull_request
    request user_profile payload branches user_specified_topic log = (log', r) ->
  log' = log
  \/ exists topic body event,
       validate_extract_webhook_http_header request http_header_name integration_name
         = Ok event /\
       log' = (log ++ [sent request user_profile topic body event])%list /\
       r = Ok json_success /\
       topic <> "" /\ body <> "".
Proof.
  rewrite main_steps.
  destruct (tame check_string (wild payload @ "repository" @ "name")) as [repo|e];
    [|intro H; injection H as <- _; left; reflexivity].
  destruct (validate_extract_webhook_http_header request http_header_name
              integration_name) as [event|e];
    [|intro H; injection H as <- _; left; reflexivity].
  destruct (assoc event (GOGS_EVENT_FUNCTION_MAPPER lib)) as [handler|];
    [|intro H; injection H as <- _; left; reflexivity].
  unfold settle.
  destruct (handler _) as [[topic body]|e];
    [|intro H; injection H as <- _; left; reflexivity].
  destruct (truthy_opt topic && truthy_opt body) eqn:Ht.
  - intro H. injection H as <- <-. right.
    apply andb_true_iff in Ht as [Ht Hb].
    destruct topic as [topic|], body as [body|]; simpl in Ht, Hb; try discriminate.
    exists topic, body, event. simpl.
    rewrite <- !truthy_not_empty. auto.
  - destruct (String.eqb event "push"); intro H; injection H as <- _; left; reflexivity.
Qed.

Lemma validate_raises_missing (header : string) (e : exn) :
  validate_extract_webhook_http_header request header integration_name = Raise e ->
  e = MissingHTTPEventHeaderError header
  /\ header_lookup header (headers request) = None.
Proof.
  unfold validate_extract_webhook_http_header.
  destruct (header_lookup header (headers request)); [discriminate|].
  intro H. injection H as <-. auto.
Qed.


(** X15. The payload is read before the headers: without a string at
    [repository.name] the view raises a schema violation whatever the
    headers are, also for a request without event header or with an
    unknown event kind; with it and without the event header the view
    raises the missing-header error, whatever else the payload holds. *)
Theorem payload_checked_before_headers (log : list SendCall) :
  (forall e,
     tame check_string (wild payload @ "repository" @ "name") = Raise e ->
     gogs_webhook_main lib integration_name http_header_name format_pull_request
       request user_profile payload branches user_specified_topic log
     = (log, Raise ValidationError))
  /\ (forall repo,
        tame check_string (wild payload @ "repository" @ "name") = Ok repo ->
        header_lookup http_header_name (headers request) = None ->
        gogs_webhook_main lib integration_name http_header_name format_pull_request
          request user_profile payload branches user_specified_topic log
        = (log, Raise (MissingHTTPEventHeaderError http_header_name))).
Proof.
  split.
  - intros e He. rewrite main_steps, He.
    assert (Hs : raises schema_violation
                   (tame check_string (wild payload @ "repository" @ "name")))
      by auto 10 with schema.
    rewrite (Hs _ He). reflexivity.
  - intros repo Hrepo Hh. rewrite main_steps, Hrepo.
    unfold validate_extract_webhook_http_header. rewrite Hh. reflexivity.
Qed.

End View.

Lemma view_delivers_at_most_once_witness :
  [ {| send_request := Sample.request "create";
       send_user_profile := tt;
       send_topic := "try-git / feature";
       send_body :=
         "john created [feature](http://localhost:3000/john/try-git/src/feature) branch.";
       send_event := "create" |} ]
  = []
  \/ exists topic body event,
       validate_extract_webhook_http_header (Sample.request "create") "X-Gogs-Event" "Gogs"
         = Ok event /\
       [ {| send_request := Sample.request "create";
            send_user_profile := tt;
            send_topic := "try-git / feature";
            send_body :=
              "john created [feature](http://localhost:3000/john/try-git/src/feature) branch.";
            send_event := "create" |} ]
       = ([] ++ [sent (Sample.request "create") tt topic body event])%list /\
       Ok json_success = Ok json_success /\
       topic <> "" /\ body <> "".
Proof.
  apply (view_delivers_at_most_once Sample.git "Gogs" "X-Gogs-Event"
           (format_pull_request_event Sample.git) (Sample.request "create") tt
           Sample.create None None []).
  reflexivity.
Defined.


Lemma payload_checked_before_headers_witness :
  api_gogs_webhook Sample.git {| headers := [] |} tt
    (JDict [("repository", JDict [("name", JInt 7)])]) None None []
  = ([], Raise ValidationError).
Proof.
  apply (proj1 (payload_checked_before_headers Sample.git "Gogs" "X-Gogs-Event"
                  (format_pull_request_event Sample.git) {| headers := [] |} tt
                  (JDict [("repository", JDict [("name", JInt 7)])]) None None [])
           ValidationError).
  reflexivity.
Defined.

(** X16. A comment event whose request does not carry the value
    "pull_request_comment" in the [x-gitea-event-type] header, in
    particular one without that header, is delivered as an issue comment:
    the topic is tagged "issue" and the body is the issue renderer's. *)
Theorem comment_without_marker_is_issue
    {UserProfile : Type} (lib : GitLib) (integration_name http_header_name : string)
    (format_pull_request : json -> bool -> result string)
    (request : HttpRequest) (user_profile : UserProfile) (payload : json)
    (branches user_specified_topic : option string)
    (log : list SendCall) (r : HttpResponse) :
  header_lookup "x-gitea-event-type" (headers request) <> Some "pull_request_comment" ->
  validate_extract_webhook_http_header request http_header_name integration_name
    = Ok "issue_comment" ->
  gogs_webhook_main lib integration_name http_header_name format_pull_request
    request user_profile payload branches user_specified_topic [] = (log, Ok r) ->
  exists repo id title k,
    tame check_string (wild payload @ "repository" @ "name") = Ok repo /\
    tame check_int (wild payload @ "issue" @ "number") = Ok id /\
    tame check_string (wild payload @ "issue" @ "title") = Ok title /\
    format_issue_comment_event_kwargs payload (is_not_None user_specified_topic) = Ok k /\
    log = [sent request user_profile
             (TOPIC_WITH_PR_OR_ISSUE_INFO_TEMPLATE lib repo "issue" id title)
             (get_issue_event_message lib k)
             "issue_comment"].
Proof.
  intros Hheader Hevent H. rewrite main_steps, Hevent in H.
  destruct (tame check_string (wild payload @ "repository" @ "name")) as [repo|e] eqn:Hrepo;
    [|discriminate].
  change (assoc "issue_comment" (GOGS_EVENT_FUNCTION_MAPPER lib))
    with (Some (handle_issue_comment_event lib)) in H.
  cbv beta iota in H.
  assert (Hmarker : String.eqb (event_type_of request) "pull_request_comment" = false).
  { apply String.eqb_neq. unfold event_type_of.
    destruct (header_lookup "x-gitea-event-type" (headers request)) as [v|];
      [congruence | discriminate]. }
  destruct (handle_issue_comment_event lib _) as [[topic body]|e] eqn:Hh;
    [|discriminate].
  unfold handle_issue_comment_event, issue_comment_body in Hh.
  cbn [Helper.event_type Helper.payload Helper.user_specified_topic context] in Hh.
  rewrite Hmarker in Hh.
  open_bind Hh as bt. destruct bt as [body' ty]. rename E into Hbody.
  open_bind Hh as repo'. rename E into Hrepo'.
  open_bind Hh as id. rename E into Hid.
  open_bind Hh as title. rename E into Htitle.
  injection Hh as <- <-.
  open_bind Hbody as b. injection Hbody as <- <-.
  unfold format_issue_comment_event in E. apply fmap_Ok_inv in E as (k & Hk & ->).
  assert (repo' = repo) as -> by congruence.
  exists repo, id, title, k.
  unfold settle in H. cbn [truthy_opt str_of] in H.
  destruct (PyStr.truthy _ && PyStr.truthy _); [|discriminate].
  injection H as <- _. auto 10.
Qed.

Lemma comment_without_marker_is_issue_witness :
  exists repo id title k,
    tame check_string (wild (Sample.issue_comment "created") @ "repository" @ "name")
      = Ok repo /\
    tame check_int (wild (Sample.issue_comment "created") @ "issue" @ "number") = Ok id /\
    tame check_string (wild (Sample.issue_comment "created") @ "issue" @ "title")
      = Ok title /\
    format_issue_comment_event_kwargs (Sample.issue_comment "created") false = Ok k /\
    [ {| send_request := Sample.request "issue_comment";
         send_user_profile := tt;
         send_topic := "try-git / issue #3 Test issue";
         send_body :=
           "kostekIV [commented](http://localhost:3000/john/try-git/issues/3#issuecomment-3) on [issue #3](http://localhost:3000/john/try-git/issues/3): Test comment";
         send_event := "issue_comment" |} ]
    = [sent (Sample.request "issue_comment") tt
         (TOPIC_WITH_PR_OR_ISSUE_INFO_TEMPLATE Sample.git repo "issue" id title)
         (get_issue_event_message Sample.git k)
         "issue_comment"].
Proof.
  apply (comment_without_marker_is_issue Sample.git "Gogs" "X-Gogs-Event"
           (format_pull_request_event Sample.git) (Sample.request "issue_comment") tt
           (Sample.issue_comment "created") None None _ json_success).
  - discriminate.
  - reflexivity.
  - reflexivity.
Defined.

(** ** Branch names and issue urls *)

(** X17. For the ref of a branch whose name does not itself contain
    "refs/heads/", the push handler filters and builds its topic on the
    branch name, the ref without its prefix. *)
Theorem push_branch_of_ordinary_ref (lib : GitLib) (helper : Helper.t) (branch : string) :
  tame check_string (wild (Helper.payload helper) @ "ref") = Ok ("refs/heads/" ++ branch) ->
  occurs "refs/heads/" branch = false ->
  removeprefix "refs/heads/" ("refs/heads/" ++ branch) = branch
  /\ (is_branch_name_notifiable lib branch (Helper.branches helper) = false ->
      handle_push_event lib helper = Ok (None, None))
  /\ (forall topic body,
        handle_push_event lib helper = Ok (Some topic, Some body) ->
        is_branch_name_notifiable lib branch (Helper.branches helper) = true /\
        topic = TOPIC_WITH_BRANCH_TEMPLATE lib (Helper.repo helper) branch).
Proof.
  intros Href Hocc. destruct (replace_is_removeprefix branch Hocc) as [Hrep Hrem].
  split; [exact Hrem|]. unfold handle_push_event. rewrite Href. cbn [bind].
  rewrite Hrep. split.
  - intros ->. reflexivity.
  - intros topic body H.
    destruct (is_branch_name_notifiable lib branch (Helper.branches helper));
      [|discriminate].
    cbn [negb] in H. open_bind H as b. injection H as <- _. auto.
Qed.

Lemma push_branch_of_ordinary_ref_witness :
  removeprefix "refs/heads/" ("refs/heads/" ++ "main") = "main"
  /\ (Sample.branch_in_allow_list "main" (Some "dev, release") = false ->
      handle_push_event Sample.git
        (Sample.helper (Sample.push "refs/heads/main" [Sample.commit "alice" ""])
                       (Some "dev, release") None "default_event_type")
      = Ok (None, None))
  /\ (forall topic body,
        handle_push_event Sample.git
          (Sample.helper (Sample.push "refs/heads/main" [Sample.commit "alice" ""])
                         (Some "dev, release") None "default_event_type")
        = Ok (Some topic, Some body) ->
        Sample.branch_in_allow_list "main" (Some "dev, release") = true /\
        topic = "try-git" ++ " / " ++ "main").
Proof.
  apply (push_branch_of_ordinary_ref Sample.git
           (Sample.helper (Sample.push "refs/heads/main" [Sample.commit "alice" ""])
                          (Some "dev, release") None "default_event_type")
           "main").
  - reflexivity.
  - reflexivity.
Defined.

Lemma to_int_not_nil (z : Z) :
  Z.to_int z <> Decimal.Pos Decimal.Nil /\ Z.to_int z <> Decimal.Neg Decimal.Nil.
Proof.
  destruct z; simpl; split; try discriminate;
    intro H; injection H as H; exact (DecimalPos.Unsigned.to_uint_nonnil _ H).
Qed.

Lemma of_int_inj (a b : Z) : PyStr.of_int a = PyStr.of_int b -> a = b.
Proof.
  unfold PyStr.of_int. intro H. apply DecimalZ.to_int_inj.
  destruct (to_int_not_nil a) as [Ha1 Ha2], (to_int_not_nil b) as [Hb1 Hb2].
  pose proof (NilZero.isi _ Ha1 Ha2) as Ea. pose proof (NilZero.isi _ Hb1 Hb2) as Eb.
  rewrite H in Ea. congruence.
Qed.

Lemma append_cancel_l (p s t : string) : p ++ s = p ++ t -> s = t.
Proof. induction p as [|c p IH]; simpl; intro H; [exact H | injection H as H; auto]. Qed.

(** X18. The issue urls of one repository are distinct for distinct
    issue numbers. *)
Theorem get_issue_url_injective (repo_url : string) (a b : Z) :
  get_issue_url repo_url a = get_issue_url repo_url b -> a = b.
Proof.
  unfold get_issue_url. intro H.
  apply append_cancel_l in H. apply (append_cancel_l "/issues/") in H.
  exact (of_int_inj _ _ H).
Qed.

Lemma get_issue_url_injective_witness : 3 = 3.
Proof.
  apply (get_issue_url_injective "http://localhost:3000/john/try-git"). reflexivity.
Defined.

(** ** Topics of issue and comment events *)

(** X19. The topic of an issues event is keyed on the issue number, the
    number its body carries, and on the issue title; the title is
    restated in the body exactly when a topic override was supplied. *)
Theorem issues_event_topic_and_body
    (lib : GitLib) (helper : Helper.t) (topic body : option string) :
  handle_issues_event lib helper = Ok (topic, body) ->
  exists number title k,
    tame check_int (wild (Helper.payload helper) @ "issue" @ "number") = Ok number /\
    tame check_string (wild (Helper.payload helper) @ "issue" @ "title") = Ok title /\
    topic = Some (TOPIC_WITH_PR_OR_ISSUE_INFO_TEMPLATE lib (Helper.repo helper)
                    "issue" number title) /\
    format_issues_event_kwargs (Helper.payload helper)
      (is_not_None (Helper.user_specified_topic helper)) = Ok k /\
    body = Some (get_issue_event_message lib k) /\
    Issue.number k = Some number /\
    Issue.title k
    = (if is_not_None (Helper.user_specified_topic helper) then Some title else None).
Proof.
  intro H. unfold handle_issues_event, format_issues_event in H.
  open_bind H as b. rename E into Hbody.
  open_bind H as number. rename E into Hnumber.
  open_bind H as title. rename E into Htitle.
  injection H as <- <-.
  apply fmap_Ok_inv in Hbody as (k & Hk & ->).
  pose proof Hk as Hk'.
  apply format_issues_event_kwargs_inv in Hk'
    as (issue_nr & assignee & stringified & action & user_name & html_url & message
        & title' & Hnr & _ & _ & _ & _ & _ & _ & Ht & Heq).
  assert (issue_nr = number) as -> by congruence.
  exists number, title, k.
  repeat apply conj; try solve [assumption | reflexivity].
  - rewrite Heq. reflexivity.
  - rewrite Heq. cbn [Issue.title].
    destruct (is_not_None (Helper.user_specified_topic helper)).
    + destruct Ht as (t & Ht & ->). congruence.
    + exact Ht.
Qed.

Lemma issues_event_topic_and_body_witness :
  exists number title k,
    tame check_int (wild (sample_issues "opened" JNull) @ "issue" @ "number") = Ok number /\
    tame check_string (wild (sample_issues "opened" JNull) @ "issue" @ "title")
      = Ok title /\
    Some "try-git / issue #3 Test issue"
    = Some (TOPIC_WITH_PR_OR_ISSUE_INFO_TEMPLATE Sample.git "try-git" "issue" number title) /\
    format_issues_event_kwargs (sample_issues "opened" JNull) false = Ok k /\
    Some "kostekIV opened [issue #3](http://localhost:3000/john/try-git/issues/3): Test body"
    = Some (get_issue_event_message Sample.git k) /\
    Issue.number k = Some number /\
    Issue.title k = None.
Proof.
  apply (issues_event_topic_and_body Sample.git
           (Sample.helper (sample_issues "opened" JNull) None None "default_event_type")).
  reflexivity.
Defined.

(** X20. The topic of a comment event is built from the repository name
    of the payload, the issue number and the issue title, and is tagged
    "PR" exactly when the disambiguating event kind is
    "pull_request_comment", and "issue" otherwise. *)
Theorem comment_topic_tag
    (lib : GitLib) (helper : Helper.t) (topic body : option string) :
  handle_issue_comment_event lib helper = Ok (topic, body) ->
  exists repo number title,
    tame check_string (wild (Helper.payload helper) @ "repository" @ "name") = Ok repo /\
    tame check_int (wild (Helper.payload helper) @ "issue" @ "number") = Ok number /\
    tame check_string (wild (Helper.payload helper) @ "issue" @ "title") = Ok title /\
    topic = Some (TOPIC_WITH_PR_OR_ISSUE_INFO_TEMPLATE lib repo
                    (if String.eqb (Helper.event_type helper) "pull_request_comment"
                     then "PR" else "issue")
                    number title).
Proof.
  intro H. unfold handle_issue_comment_event, issue_comment_body in H.
  open_bind H as bt. destruct bt as [b ty]. rename E into Hbody.
  open_bind H as repo. rename E into Hrepo.
  open_bind H as number. rename E into Hnumber.
  open_bind H as title. rename E into Htitle.
  injection H as <- <-.
  exists repo, number, title.
  repeat apply conj; try assumption.
  destruct (String.eqb (Helper.event_type helper) "pull_request_comment");
    open_bind Hbody as b'; injection Hbody as _ <-; reflexivity.
Qed.

Lemma comment_topic_tag_witness :
  exists repo number title,
    tame check_string (wild (Sample.issue_comment "created") @ "repository" @ "name")
      = Ok repo /\
    tame check_int (wild (Sample.issue_comment "created") @ "issue" @ "number")
      = Ok number /\
    tame check_string (wild (Sample.issue_comment "created") @ "issue" @ "title")
      = Ok title /\
    Some "try-git / PR #3 Test issue"
    = Some (TOPIC_WITH_PR_OR_ISSUE_INFO_TEMPLATE Sample.git repo "PR" number title).
Proof.
  apply (comment_topic_tag Sample.git
           (Sample.helper (Sample.issue_comment "created") None None
                          "pull_request_comment")
           (Some "try-git / PR #3 Test issue")
           (Some "kostekIV [commented](http://localhost:3000/john/try-git/issues/3#issuecomment-3) on [PR #3 Test issue](http://localhost:3000/john/try-git/pulls/3): Test comment")).
  reflexivity.
Defined.

(** ** Failures of a handler *)

(** X21. A failure of the handler of a known event kind is the view's
    failure: it is neither turned into the unsupported-event error nor
    into a success, and nothing is delivered. *)
Theorem handler_failure_propagates
    {UserProfile : Type} (lib : GitLib) (integration_name http_header_name : string)
    (format_pull_request : json -> bool -> result string)
    (request : HttpRequest) (user_profile : UserProfile) (payload : json)
    (branches user_specified_topic : option string)
    (repo event : string) (handler : Handler) (e : exn) (log : list SendCall) :
  tame check_string (wild payload @ "repository" @ "name") = Ok repo ->
  validate_extract_webhook_http_header request http_header_name integration_name
    = Ok event ->
  assoc event (GOGS_EVENT_FUNCTION_MAPPER lib) = Some handler ->
  handler (context format_pull_request request payload branches user_specified_topic repo)
    = Raise e ->
  gogs_webhook_main lib integration_name http_header_name format_pull_request
    request user_profile payload branches user_specified_topic log = (log, Raise e).
Proof.
  intros Hrepo Hevent Hm Hh. rewrite main_steps, Hrepo, Hevent, Hm.
  unfold settle. rewrite Hh. reflexivity.
Qed.

Lemma handler_failure_propagates_witness :
  api_gogs_webhook Sample.git (Sample.request "push") tt
    (Sample.push "refs/heads/main" [Sample.commit "" " "]) None None []
  = ([], Raise IndexError).
Proof.
  apply (handler_failure_propagates Sample.git "Gogs" "X-Gogs-Event"
           (format_pull_request_event Sample.git) (Sample.request "push") tt
           (Sample.push "refs/heads/main" [Sample.commit "" " "]) None None
           "try-git" "push" (handle_push_event Sample.git)).
  - reflexivity.
  - reflexivity.
  - reflexivity.
  - reflexivity.
Defined.

(** * The branch filter, the dispatcher and the comment handlers, exactly *)

(** ** The branch a push is filtered on *)

(** C1. The push handler filters on the ref with every occurrence of
    "refs/heads/" removed, not on the ref without its prefix: a push to
    the branch named "refs/heads/main" with the allow-list "main" is
    filtered as "main"; the branch name without the prefix,
    "refs/heads/main", does not pass the allow-list, yet the handler
    returns a topic and a body and the view delivers them. *)
Theorem push_filter_ignores_inner_prefix :
  let ref := "refs/heads/refs/heads/main" in
  let payload := Sample.push ref [Sample.commit "alice" ""] in
  tame check_string (wild payload @ "ref") = Ok ref /\
  removeprefix "refs/heads/" ref = "refs/heads/main" /\
  is_branch_name_notifiable Sample.git (removeprefix "refs/heads/" ref) (Some "main")
    = false /\
  PyStr.replace "refs/heads/" "" ref = "main" /\
  exists topic body,
    handle_push_event Sample.git
      (Sample.helper payload (Some "main") None "default_event_type")
      = Ok (Some topic, Some body) /\
    api_gogs_webhook Sample.git (Sample.request "push") tt payload (Some "main") None []
      = ([sent (Sample.request "push") tt topic body "push"], Ok json_success).
Proof.
  cbv zeta. repeat apply conj; try reflexivity.
  eexists. eexists. split; reflexivity.
Qed.

(** ** When the dispatcher reports an unsupported event *)

Definition not_unsupported (e : exn) : Prop :=
  forall event, e <> UnsupportedWebhookEventTypeError event.

(** A pull-request formatter that does not itself raise the
    unsupported-event error. *)
Definition never_unsupported (f : json -> bool -> result string) : Prop :=
  forall payload include_title, raises not_unsupported (f payload include_title).

Lemma formatter_failure_not_unsupported (e : exn) :
  formatter_failure e -> not_unsupported e.
Proof. intros [-> | ->] event; discriminate. Qed.

Lemma handlers_never_unsupported
    (lib : GitLib) (event : string) (handler : Handler) (helper : Helper.t) :
  never_unsupported (Helper.format_pull_request_event helper) ->
  assoc event (GOGS_EVENT_FUNCTION_MAPPER lib) = Some handler ->
  raises not_unsupported (handler helper).
Proof.
  intros Hf Hm.
  destruct (mapper_cases _ _ _ Hm) as [[_ ->]|[[_ ->]|[[_ ->]|[[_ ->]|[[_ ->]|[_ ->]]]]]].
  - apply (raises_weaken formatter_failure); [exact formatter_failure_not_unsupported|].
    unfold handle_push_event, format_push_event. walk_failures.
  - apply (raises_weaken formatter_failure); [exact formatter_failure_not_unsupported|].
    unfold handle_create_event, format_new_branch_event. walk_failures.
  - unfold handle_pull_request_event.
    apply raises_bind; [apply Hf | intro].
    apply (raises_weaken formatter_failure); [exact formatter_failure_not_unsupported|].
    walk_failures.
  - apply (raises_weaken formatter_failure); [exact formatter_failure_not_unsupported|].
    unfold handle_issues_event, format_issues_event. walk_failures.
  - apply (raises_weaken formatter_failure); [exact formatter_failure_not_unsupported|].
    unfold handle_issue_comment_event, issue_comment_body, format_issue_comment_event.
    walk_failures.
  - apply (raises_weaken formatter_failure); [exact formatter_failure_not_unsupported|].
    unfold handle_release_event, format_release_event. walk_failures.
Qed.

(** A handler other than the push handler returns two strings. *)
Lemma non_push_handlers_return_both
    (lib : GitLib) (event : string) (handler : Handler) (helper : Helper.t)
    (topic body : option string) :
  assoc event (GOGS_EVENT_FUNCTION_MAPPER lib) = Some handler ->
  event <> "push" ->
  handler helper = Ok (topic, body) ->
  topic <> None /\ body <> None.
Proof.
  intros Hm Hpush Hr.
  assert (H : returns (fun r => fst r <> None /\ snd r <> None) (handler helper)).
  { destruct (mapper_cases _ _ _ Hm)
      as [[-> _]|[[_ ->]|[[_ ->]|[[_ ->]|[[_ ->]|[_ ->]]]]]];
      [congruence| | | | |].
    - unfold handle_create_event. walk_returns. apply returns_Ok. split; discriminate.
    - unfold handle_pull_request_event. walk_returns. apply returns_Ok.
      split; discriminate.
    - unfold handle_issues_event. walk_returns. apply returns_Ok. split; discriminate.
    - unfold handle_issue_comment_event. walk_returns. apply returns_Ok.
      split; discriminate.
    - unfold handle_release_event. walk_returns. apply returns_Ok. split; discriminate. }
  exact (H _ Hr).
Qed.

(** A topic or a body that is absent or empty. *)
Definition absent_or_empty (x : option string) : Prop := x = None \/ x = Some "".

Lemma not_deliverable_iff (topic body : option string) :
  truthy_opt topic && truthy_opt body = false
  <-> absent_or_empty topic \/ absent_or_empty body.
Proof.
  unfold absent_or_empty.
  destruct topic as [[|c t]|], body as [[|d b]|]; simpl; split; intro H; auto;
    try discriminate;
    destruct H as [[H|H]|[H|H]]; discriminate.
Qed.

(** The dispatcher raises the unsupported-event error exactly when the
    event kind is unknown or a handler other than the push handler
    returns neither topic nor body. *)
Definition unsupported_only_for_unknown_or_absent_result : Prop :=
  forall (lib : GitLib) (format_pull_request : json -> bool -> result string)
         (request : HttpRequest) (payload : json)
         (branches user_specified_topic : option string) (event : string),
    validate_extract_webhook_http_header request "X-Gogs-Event" "Gogs" = Ok event ->
    (unsupported
       (snd (gogs_webhook_main lib "Gogs" "X-Gogs-Event" format_pull_request
               request tt payload branches user_specified_topic []))
     <-> ~ In event ["push"; "create"; "pull_request"; "issues"; "issue_comment"; "release"]
         \/ exists handler helper,
              assoc event (GOGS_EVENT_FUNCTION_MAPPER lib) = Some handler /\
              event <> "push" /\
              handler helper = Ok (None, None)).

(** A pull-request event formatted by an injected formatter that renders
    the empty body: the handler returns a topic and the body "", and the
    dispatcher raises the unsupported-event error for the known kind
    "pull_request".  And an unknown event kind on a payload without a
    repository name ends in a schema violation, not in the
    unsupported-event error. *)
Lemma empty_body_is_unsupported :
  ~ unsupported_only_for_unknown_or_absent_result
  /\ gogs_webhook_main Sample.git "Gogs" "X-Gogs-Event" (fun _ _ => Ok "")
       (Sample.request "pull_request") tt
       (Sample.pull_request (JStr "opened") false JNull) None None []
     = ([], Raise (UnsupportedWebhookEventTypeError "pull_request"))
  /\ handle_pull_request_event Sample.git
       (context (fun _ _ => Ok "") (Sample.request "pull_request")
                (Sample.pull_request (JStr "opened") false JNull) None None "try-git")
     = Ok (Some "try-git / PR #1349 Title Text for Pull Request", Some "")
  /\ api_gogs_webhook Sample.git (Sample.request "unknown_event") tt (JDict []) None None []
     = ([], Raise ValidationError).
Proof.
  repeat apply conj; try reflexivity.
  intro H.
  specialize (H Sample.git (fun _ _ => Ok "") (Sample.request "pull_request")
                (Sample.pull_request (JStr "opened") false JNull) None None
                "pull_request" eq_refl).
  destruct H as [H _].
  destruct H as [H|(handler & helper & Hm & Hne & Hr)].
  - exists "pull_request". reflexivity.
  - apply H. simpl. auto.
  - destruct (non_push_handlers_return_both _ _ _ _ _ _ Hm Hne Hr) as [Ht _].
    apply Ht. reflexivity.
Qed.

Lemma settle_cases
    {UserProfile : Type} (request : HttpRequest) (user_profile : UserProfile)
    (event : string) (r : result NotificationResult) :
  raises not_unsupported r ->
  (unsupported (snd (settle request user_profile event r []))
   <-> exists topic body,
         r = Ok (topic, body) /\ event <> "push"
         /\ (absent_or_empty topic \/ absent_or_empty body))
  /\ (unsupported (snd (settle request user_profile event r [])) ->
      settle request user_profile event r []
      = ([], Raise (UnsupportedWebhookEventTypeError event)))
  /\ (forall topic body,
        r = Ok (Some topic, Some body) -> topic <> "" -> body <> "" ->
        settle request user_profile event r []
        = ([sent request user_profile topic body event], Ok json_success)).
Proof.
  intro Hr. unfold settle, unsupported. destruct r as [[topic body]|e].
  - destruct (truthy_opt topic && truthy_opt body) eqn:Ht.
    + repeat apply conj.
      * intros [ev H]. discriminate.
      * intros (t & b & H & _ & Hab). injection H as <- <-.
        apply not_deliverable_iff in Hab. congruence.
      * intros [ev H]. discriminate.
      * intros t b H Hnt Hnb. injection H as -> ->. reflexivity.
    + assert (Hnot : forall t b, Ok (topic, body) = Ok (Some t, Some b) ->
                                 t <> "" -> b <> "" -> False).
      { intros t b H Hnt Hnb. injection H as -> ->.
        apply truthy_not_empty in Hnt, Hnb. simpl in Ht.
        rewrite Hnt, Hnb in Ht. discriminate. }
      destruct (String.eqb_spec event "push") as [->|Hne].
      * repeat apply conj.
        -- intros [ev H]. discriminate.
        -- intros (t & b & _ & Hp & _). congruence.
        -- intros [ev H]. discriminate.
        -- intros t b H Hnt Hnb. exfalso. exact (Hnot t b H Hnt Hnb).
      * repeat apply conj.
        -- intros _. exists topic, body.
           repeat split; try assumption. apply not_deliverable_iff. exact Ht.
        -- intros _. exists event. reflexivity.
        -- reflexivity.
        -- intros t b H Hnt Hnb. exfalso. exact (Hnot t b H Hnt Hnb).
  - repeat apply conj.
    + intros [ev H]. simpl in H. injection H as ->.
      exfalso. exact (Hr _ eq_refl ev eq_refl).
    + intros (t & b & H & _). discriminate.
    + intros [ev H]. simpl in H. injection H as ->.
      exfalso. exact (Hr _ eq_refl ev eq_refl).
    + intros t b H. discriminate.
Qed.

(** C2, amended. Once the repository name and the event header are
    read, and with a pull-request formatter that does not itself raise
    the unsupported-event error, the dispatcher raises
    [UnsupportedWebhookEventTypeError] exactly when the event kind is not
    one of the six known ones or a handler other than the push handler
    returns a pair whose topic or body is absent or empty; the error
    carries the event kind and nothing is sent; an unknown kind fails at
    once, no handler being looked up; and a handler result with non-empty
    topic and body is delivered as exactly one message, with success. *)
Theorem dispatcher_raises_unsupported
    {UserProfile : Type} (lib : GitLib) (integration_name http_header_name : string)
    (format_pull_request : json -> bool -> result string)
    (request : HttpRequest) (user_profile : UserProfile) (payload : json)
    (branches user_specified_topic : option string) (repo event : string) :
  never_unsupported format_pull_request ->
  tame check_string (wild payload @ "repository" @ "name") = Ok repo ->
  validate_extract_webhook_http_header request http_header_name integration_name
    = Ok event ->
  let helper :=
    context format_pull_request request payload branches user_specified_topic repo in
  let outcome :=
    gogs_webhook_main lib integration_name http_header_name format_pull_request
      request user_profile payload branches user_specified_topic [] in
  (unsupported (snd outcome)
   <-> ~ In event ["push"; "create"; "pull_request"; "issues"; "issue_comment"; "release"]
       \/ exists handler topic body,
            assoc event (GOGS_EVENT_FUNCTION_MAPPER lib) = Some handler /\
            event <> "push" /\
            handler helper = Ok (topic, body) /\
            (absent_or_empty topic \/ absent_or_empty body))
  /\ (unsupported (snd outcome) ->
      outcome = ([], Raise (UnsupportedWebhookEventTypeError event)))
  /\ (~ In event ["push"; "create"; "pull_request"; "issues"; "issue_comment"; "release"] ->
      assoc event (GOGS_EVENT_FUNCTION_MAPPER lib) = None /\
      outcome = ([], Raise (UnsupportedWebhookEventTypeError event)))
  /\ (forall handler topic body,
        assoc event (GOGS_EVENT_FUNCTION_MAPPER lib) = Some handler ->
        handler helper = Ok (Some topic, Some body) ->
        topic <> "" -> body <> "" ->
        outcome = ([sent request user_profile topic body event], Ok json_success)).
Proof.
  intros Hf Hrepo Hevent helper outcome. subst outcome.
  rewrite main_steps, Hrepo, Hevent. fold helper.
  change ["push"; "create"; "pull_request"; "issues"; "issue_comment"; "release"]
    with (map fst (GOGS_EVENT_FUNCTION_MAPPER lib)).
  rewrite <- assoc_None.
  destruct (assoc event (GOGS_EVENT_FUNCTION_MAPPER lib)) as [handler|] eqn:Hm.
  - destruct (settle_cases request user_profile event (handler helper)
                (handlers_never_unsupported lib event handler helper Hf Hm))
      as (Hiff & Hcarry & Hsend).
    repeat apply conj.
    + intro H. right. apply Hiff in H as (t & b & Hr & Hp & Hab).
      exists handler, t, b. auto.
    + intros [H|(h & t & b & Hh & Hp & Hr & Hab)]; [discriminate|].
      injection Hh as <-. apply Hiff. exists t, b. auto.
    + exact Hcarry.
    + discriminate.
    + intros h t b Hh Hr Hnt Hnb. injection Hh as <-. exact (Hsend t b Hr Hnt Hnb).
  - repeat apply conj.
    + intros _. left. reflexivity.
    + intros _. exists event. reflexivity.
    + intros _. reflexivity.
    + intros _. split; reflexivity.
    + intros h t b H. discriminate H.
Qed.

Lemma dispatcher_raises_unsupported_witness :
  gogs_webhook_main Sample.git "Gogs" "X-Gogs-Event" (fun _ _ => Ok "")
    (Sample.request "pull_request") tt
    (Sample.pull_request (JStr "opened") false JNull) None None []
  = ([], Raise (UnsupportedWebhookEventTypeError "pull_request")).
Proof.
  destruct (dispatcher_raises_unsupported Sample.git "Gogs" "X-Gogs-Event"
              (fun _ _ => Ok "") (Sample.request "pull_request") tt
              (Sample.pull_request (JStr "opened") false JNull) None None
              "try-git" "pull_request"
              ltac:(intros p b e H; discriminate H) eq_refl eq_refl)
    as (Hiff & Hcarry & _).
  apply Hcarry. apply Hiff. right.
  exists (handle_pull_request_event Sample.git),
         (Some "try-git / PR #1349 Title Text for Pull Request"), (Some "").
  repeat split.
  - discriminate.
  - right. right. reflexivity.
Defined.

(** ** Comments on pull requests and on issues, exactly *)

Lemma tame_sub_Ok {A : Type} (validator : json -> result A)
    (v : result json) (key : string) (a : A) :
  tame validator (v @ key) = Ok a ->
  exists x, v = Ok x /\ tame validator (wild x @ key) = Ok a.
Proof.
  destruct v as [x|e]; [|discriminate]. intro H. exists x. split; [reflexivity | exact H].
Qed.

Lemma pull_request_comment_kwargs_exact (payload : json) (k : PullRequest.kwargs) :
  pull_request_comment_kwargs payload = Ok k
  <-> exists action comment_url user_name url number message title,
        tame check_string (wild payload @ "action") = Ok action /\
        tame check_string (wild payload @ "comment" @ "html_url") = Ok comment_url /\
        tame check_string (wild payload @ "sender" @ "login") = Ok user_name /\
        tame check_string (wild payload @ "issue" @ "html_url") = Ok url /\
        tame check_int (wild payload @ "issue" @ "number") = Ok number /\
        tame check_string (wild payload @ "comment" @ "body") = Ok message /\
        tame check_string (wild payload @ "issue" @ "title") = Ok title /\
        k = {| PullRequest.user_name := user_name;
               PullRequest.action := comment_action_text action comment_url;
               PullRequest.url := url;
               PullRequest.number := Some number;
               PullRequest.target_branch := None;
               PullRequest.base_branch := None;
               PullRequest.message := Some message;
               PullRequest.type := Some "PR";
               PullRequest.title := Some title;
               PullRequest.assignee_updated := None |}.
Proof.
  split.
  - apply pull_request_comment_kwargs_inv.
  - intros (action & comment_url & user_name & url & number & message & title
            & Ha & Hc & Hu & Hurl & Hn & Hm & Ht & ->).
    unfold pull_request_comment_kwargs.
    rewrite Ha. cbn [bind]. rewrite Hc. cbn [bind]. rewrite Hu. cbn [bind].
    rewrite Hurl. cbn [bind]. rewrite Hn. cbn [bind]. rewrite Hm. cbn [bind].
    rewrite Ht. reflexivity.
Qed.

Lemma format_issue_comment_event_kwargs_exact
    (payload : json) (include_title : bool) (k : Issue.kwargs) :
  format_issue_comment_event_kwargs payload include_title = Ok k
  <-> exists action comment_url user_name html_url number message title,
        tame check_string (wild payload @ "action") = Ok action /\
        tame check_string (wild payload @ "comment" @ "html_url") = Ok comment_url /\
        tame check_string (wild payload @ "sender" @ "login") = Ok user_name /\
        tame check_string (wild payload @ "repository" @ "html_url") = Ok html_url /\
        tame check_int (wild payload @ "issue" @ "number") = Ok number /\
        tame check_string (wild payload @ "comment" @ "body") = Ok message /\
        (if include_title
         then exists t, tame check_string (wild payload @ "issue" @ "title") = Ok t /\
                        title = Some t
         else title = None) /\
        k = {| Issue.user_name := user_name;
               Issue.action := comment_action_text action comment_url;
               Issue.url := get_issue_url html_url number;
               Issue.number := Some number;
               Issue.message := Some message;
               Issue.assignee := None;
               Issue.title := title;
               Issue.assignee_updated := None |}.
Proof.
  split.
  - intro H. pose proof H as H'.
    apply format_issue_comment_event_kwargs_inv in H'
      as (action & comment_url & user_name & html_url & number & message
          & Ha & Hc & Hu & Hh & Hn & Hm & E1 & E2 & E3 & E4 & E5 & E6 & E7).
    destruct (format_issue_comment_event_kwargs_title _ _ _ H) as [Ht1 Ht2].
    exists action, comment_url, user_name, html_url, number, message, (Issue.title k).
    repeat apply conj; try assumption.
    + destruct include_title.
      * destruct (Issue.title k) as [t|] eqn:Et.
        -- exists t. split; [exact (Ht2 t eq_refl) | reflexivity].
        -- exfalso. apply (proj2 Ht1); reflexivity.
      * destruct (Issue.title k) as [t|] eqn:Et; [|reflexivity].
        assert (false = true) by (apply Ht1; discriminate). discriminate.
    + destruct k. cbn in *. congruence.
  - intros (action & comment_url & user_name & html_url & number & message & title
            & Ha & Hc & Hu & Hh & Hn & Hm & Ht & ->).
    apply tame_sub_Ok in Hc as (comment & Hcomment & Hc).
    apply tame_sub_Ok in Hn as (issue & Hissue & Hn).
    rewrite Hcomment in Hm.
    unfold format_issue_comment_event_kwargs. unfold wild in *.
    rewrite Ha. cbn [bind]. rewrite Hcomment. cbn [bind]. rewrite Hissue. cbn [bind].
    rewrite Hc. cbn [bind]. rewrite Hu. cbn [bind]. rewrite Hh. cbn [bind].
    rewrite Hn. cbn [bind]. rewrite Hm. cbn [bind].
    destruct include_title.
    + destruct Ht as (t & Ht & ->). rewrite Hissue in Ht. rewrite Ht. reflexivity.
    + subst title. reflexivity.
Qed.

(** C4. A comment event marked [pull_request_comment] is rendered the
    same whatever topic override the caller supplied; its handler returns
    exactly when the fields it reads are there, and then the body is the
    pull-request renderer's, called with the title of the issue and the
    type "PR", and the topic is tagged "PR".  Any other comment event is
    rendered by the issue formatter, which returns exactly when the
    fields it reads are there and passes the title exactly when its
    [include_title] flag is set. *)
Theorem pull_request_comment_rendering (lib : GitLib) (helper : Helper.t) :
  (Helper.event_type helper = "pull_request_comment" ->
   forall override,
     handle_issue_comment_event lib (with_topic helper override)
     = handle_issue_comment_event lib helper)
  /\ (Helper.event_type helper = "pull_request_comment" ->
      forall topic body,
        handle_issue_comment_event lib helper = Ok (topic, body)
        <-> exists action comment_url user_name url number message title repo,
              tame check_string (wild (Helper.payload helper) @ "action") = Ok action /\
              tame check_string (wild (Helper.payload helper) @ "comment" @ "html_url")
                = Ok comment_url /\
              tame check_string (wild (Helper.payload helper) @ "sender" @ "login")
                = Ok user_name /\
              tame check_string (wild (Helper.payload helper) @ "issue" @ "html_url")
                = Ok url /\
              tame check_int (wild (Helper.payload helper) @ "issue" @ "number")
                = Ok number /\
              tame check_string (wild (Helper.payload helper) @ "comment" @ "body")
                = Ok message /\
              tame check_string (wild (Helper.payload helper) @ "issue" @ "title")
                = Ok title /\
              tame check_string (wild (Helper.payload helper) @ "repository" @ "name")
                = Ok repo /\
              topic = Some (TOPIC_WITH_PR_OR_ISSUE_INFO_TEMPLATE lib repo "PR" number title) /\
              body = Some (get_pull_request_event_message lib
                             {| PullRequest.user_name := user_name;
                                PullRequest.action :=
                                  comment_action_text action comment_url;
                                PullRequest.url := url;
                                PullRequest.number := Some number;
                                PullRequest.target_branch := None;
                                PullRequest.base_branch := None;
                                PullRequest.message := Some message;
                                PullRequest.type := Some "PR";
                                PullRequest.title := Some title;
                                PullRequest.assignee_updated := None |}))
  /\ (Helper.event_type helper <> "pull_request_comment" ->
      forall topic body,
        handle_issue_comment_event lib helper = Ok (topic, body)
        <-> exists k repo number title,
              format_issue_comment_event_kwargs
                (Helper.payload helper)
                (is_not_None (Helper.user_specified_topic helper)) = Ok k /\
              tame check_string (wild (Helper.payload helper) @ "repository" @ "name")
                = Ok repo /\
              tame check_int (wild (Helper.payload helper) @ "issue" @ "number")
                = Ok number /\
              tame check_string (wild (Helper.payload helper) @ "issue" @ "title")
                = Ok title /\
              topic = Some (TOPIC_WITH_PR_OR_ISSUE_INFO_TEMPLATE lib repo "issue"
                              number title) /\
              body = Some (get_issue_event_message lib k))
  /\ (forall include_title k,
        format_issue_comment_event_kwargs (Helper.payload helper) include_title = Ok k
        <-> exists action comment_url user_name html_url number message title,
              tame check_string (wild (Helper.payload helper) @ "action") = Ok action /\
              tame check_string (wild (Helper.payload helper) @ "comment" @ "html_url")
                = Ok comment_url /\
              tame check_string (wild (Helper.payload helper) @ "sender" @ "login")
                = Ok user_name /\
              tame check_string (wild (Helper.payload helper) @ "repository" @ "html_url")
                = Ok html_url /\
              tame check_int (wild (Helper.payload helper) @ "issue" @ "number")
                = Ok number /\
              tame check_string (wild (Helper.payload helper) @ "comment" @ "body")
                = Ok message /\
              (if include_title
               then exists t,
                      tame check_string (wild (Helper.payload helper) @ "issue" @ "title")
                        = Ok t /\
                      title = Some t
               else title = None) /\
              k = {| Issue.user_name := user_name;
                     Issue.action := comment_action_text action comment_url;
                     Issue.url := get_issue_url html_url number;
                     Issue.number := Some number;
                     Issue.message := Some message;
                     Issue.assignee := None;
                     Issue.title := title;
                     Issue.assignee_updated := None |}).
Proof.
  split; [|split; [|split]].
  - intros Hev override.
    unfold handle_issue_comment_event, issue_comment_body, with_topic.
    cbn [Helper.event_type Helper.payload Helper.user_specified_topic].
    rewrite Hev. reflexivity.
  - intros Hev topic body.
    unfold handle_issue_comment_event, issue_comment_body.
    rewrite Hev. cbn [String.eqb Ascii.eqb Bool.eqb]. split.
    + intro H. open_bind H as bt. destruct bt as [body' ty]. rename E into Hbody.
      open_bind H as repo. rename E into Hrepo.
      open_bind H as number. rename E into Hnumber.
      open_bind H as title. rename E into Htitle.
      injection H as <- <-.
      open_bind Hbody as b. apply fmap_Ok_inv in E as (k & Hk & ->).
      injection Hbody as <- <-.
      apply pull_request_comment_kwargs_inv in Hk
        as (action & comment_url & user_name & url & number' & message & title'
            & Ha & Hc & Hu & Hurl & Hn & Hm & Ht & ->).
      assert (number' = number) as -> by congruence.
      assert (title' = title) as -> by congruence.
      exists action, comment_url, user_name, url, number, message, title, repo.
      repeat apply conj; solve [assumption | reflexivity].
    + intros (action & comment_url & user_name & url & number & message & title & repo
              & Ha & Hc & Hu & Hurl & Hn & Hm & Ht & Hrepo & -> & ->).
      assert (Hk : pull_request_comment_kwargs (Helper.payload helper)
                   = Ok {| PullRequest.user_name := user_name;
                           PullRequest.action := comment_action_text action comment_url;
                           PullRequest.url := url;
                           PullRequest.number := Some number;
                           PullRequest.target_branch := None;
                           PullRequest.base_branch := None;
                           PullRequest.message := Some message;
                           PullRequest.type := Some "PR";
                           PullRequest.title := Some title;
                           PullRequest.assignee_updated := None |}).
      { apply pull_request_comment_kwargs_exact.
        exists action, comment_url, user_name, url, number, message, title.
        repeat apply conj; solve [eassumption | reflexivity]. }
      rewrite Hk. cbn [fmap bind]. rewrite Hrepo. cbn [bind].
      rewrite Hn. cbn [bind]. rewrite Ht. reflexivity.
  - intros Hev topic body.
    unfold handle_issue_comment_event, issue_comment_body, format_issue_comment_event.
    apply String.eqb_neq in Hev. rewrite Hev. split.
    + intro H. open_bind H as bt. destruct bt as [body' ty]. rename E into Hbody.
      open_bind H as repo. rename E into Hrepo.
      open_bind H as number. rename E into Hnumber.
      open_bind H as title. rename E into Htitle.
      injection H as <- <-.
      open_bind Hbody as b. apply fmap_Ok_inv in E as (k & Hk & ->).
      injection Hbody as <- <-.
      exists k, repo, number, title. auto 10.
    + intros (k & repo & number & title & Hk & Hrepo & Hn & Ht & -> & ->).
      rewrite Hk. cbn [fmap bind]. rewrite Hrepo. cbn [bind].
      rewrite Hn. cbn [bind]. rewrite Ht. reflexivity.
  - intros include_title k. apply format_issue_comment_event_kwargs_exact.
Qed.

Lemma pull_request_comment_rendering_witness :
  handle_issue_comment_event Sample.git
    (Sample.helper (Sample.issue_comment "created") None None "pull_request_comment")
  = Ok (Some "try-git / PR #3 Test issue",
        Some "kostekIV [commented](http://localhost:3000/john/try-git/issues/3#issuecomment-3) on [PR #3 Test issue](http://localhost:3000/john/try-git/pulls/3): Test comment")
  /\ format_issue_comment_event_kwargs (Sample.issue_comment "edited") true
     = Ok {| Issue.user_name := "kostekIV";
             Issue.action :=
               "edited a [comment](http://localhost:3000/john/try-git/issues/3#issuecomment-3) on";
             Issue.url := "http://localhost:3000/john/try-git/issues/3";
             Issue.number := Some 3;
             Issue.message := Some "Test comment";
             Issue.assignee := None;
             Issue.title := Some "Test issue";
             Issue.assignee_updated := None |}
  /\ format_issue_comment_event_kwargs (Sample.issue_comment "edited") false
     = Ok {| Issue.user_name := "kostekIV";
             Issue.action :=
               "edited a [comment](http://localhost:3000/john/try-git/issues/3#issuecomment-3) on";
             Issue.url := "http://localhost:3000/john/try-git/issues/3";
             Issue.number := Some 3;
             Issue.message := Some "Test comment";
             Issue.assignee := None;
             Issue.title := None;
             Issue.assignee_updated := None |}.
Proof.
  destruct (pull_request_comment_rendering Sample.git
              (Sample.helper (Sample.issue_comment "created") None None
                             "pull_request_comment"))
    as (_ & Hpr & _ & _).
  destruct (pull_request_comment_rendering Sample.git
              (Sample.helper (Sample.issue_comment "edited") None None
                             "default_event_type"))
    as (_ & _ & _ & Hissue).
  repeat apply conj.
  - apply (Hpr eq_refl).
    exists "created", "http://localhost:3000/john/try-git/issues/3#issuecomment-3",
           "kostekIV", "http://localhost:3000/john/try-git/pulls/3", 3,
           "Test comment", "Test issue", "try-git".
    repeat apply conj; reflexivity.
  - apply (Hissue true).
    exists "edited", "http://localhost:3000/john/try-git/issues/3#issuecomment-3",
           "kostekIV", "http://localhost:3000/john/try-git", 3, "Test comment",
           (Some "Test issue").
    repeat apply conj; try reflexivity.
    exists "Test issue". split; reflexivity.
  - apply (Hissue false).
    exists "edited", "http://localhost:3000/john/try-git/issues/3#issuecomment-3",
           "kostekIV", "http://localhost:3000/john/try-git", 3, "Test comment",
           (@None string).
    repeat apply conj; reflexivity.
Defined.

(** ** The title flag *)

(** C5. The flag the pull-request, issues and non-PR comment handlers
    pass to their formatter is set exactly when the caller supplied a
    topic override: each handler returns exactly when its formatter
    returns at that flag and the fields of the topic are there, the body
    is then the formatter's result at that flag, and a failure of the
    formatter at that flag is the handler's failure. *)
Theorem handlers_pass_topic_override_flag (lib : GitLib) (helper : Helper.t) :
  let flag := is_not_None (Helper.user_specified_topic helper) in
  (flag = true <-> Helper.user_specified_topic helper <> None)
  /\ (forall topic body,
        handle_pull_request_event lib helper = Ok (topic, body)
        <-> exists b id title,
              Helper.format_pull_request_event helper (Helper.payload helper) flag
                = Ok b /\
              tame check_int (wild (Helper.payload helper) @ "pull_request" @ "id")
                = Ok id /\
              tame check_string (wild (Helper.payload helper) @ "pull_request" @ "title")
                = Ok title /\
              topic = Some (TOPIC_WITH_PR_OR_ISSUE_INFO_TEMPLATE lib (Helper.repo helper)
                              "PR" id title) /\
              body = Some b)
  /\ (forall topic body,
        handle_issues_event lib helper = Ok (topic, body)
        <-> exists b number title,
              format_issues_event lib (Helper.payload helper) flag = Ok b /\
              tame check_int (wild (Helper.payload helper) @ "issue" @ "number")
                = Ok number /\
              tame check_string (wild (Helper.payload helper) @ "issue" @ "title")
                = Ok title /\
              topic = Some (TOPIC_WITH_PR_OR_ISSUE_INFO_TEMPLATE lib (Helper.repo helper)
                              "issue" number title) /\
              body = Some b)
  /\ (Helper.event_type helper <> "pull_request_comment" ->
      forall topic body,
        handle_issue_comment_event lib helper = Ok (topic, body)
        <-> exists b repo number title,
              format_issue_comment_event lib (Helper.payload helper) flag = Ok b /\
              tame check_string (wild (Helper.payload helper) @ "repository" @ "name")
                = Ok repo /\
              tame check_int (wild (Helper.payload helper) @ "issue" @ "number")
                = Ok number /\
              tame check_string (wild (Helper.payload helper) @ "issue" @ "title")
                = Ok title /\
              topic = Some (TOPIC_WITH_PR_OR_ISSUE_INFO_TEMPLATE lib repo "issue"
                              number title) /\
              body = Some b)
  /\ (forall e,
        Helper.format_pull_request_event helper (Helper.payload helper) flag = Raise e ->
        handle_pull_request_event lib helper = Raise e)
  /\ (forall e,
        format_issues_event lib (Helper.payload helper) flag = Raise e ->
        handle_issues_event lib helper = Raise e)
  /\ (Helper.event_type helper <> "pull_request_comment" ->
      forall e,
        format_issue_comment_event lib (Helper.payload helper) flag = Raise e ->
        handle_issue_comment_event lib helper = Raise e).
Proof.
  intro flag. subst flag. split; [apply is_not_None_iff|].
  split; [|split; [|split; [|split; [|split]]]].
  - intros topic body. unfold handle_pull_request_event. split.
    + intro H. open_bind H as b. rename E into Hb.
      open_bind H as id. rename E into Hid.
      open_bind H as title. rename E into Htitle.
      injection H as <- <-. exists b, id, title. auto.
    + intros (b & id & title & Hb & Hid & Htitle & -> & ->).
      rewrite Hb. cbn [bind]. rewrite Hid. cbn [bind]. rewrite Htitle. reflexivity.
  - intros topic body. unfold handle_issues_event. split.
    + intro H. open_bind H as b. rename E into Hb.
      open_bind H as id. rename E into Hid.
      open_bind H as title. rename E into Htitle.
      injection H as <- <-. exists b, id, title. auto.
    + intros (b & id & title & Hb & Hid & Htitle & -> & ->).
      rewrite Hb. cbn [bind]. rewrite Hid. cbn [bind]. rewrite Htitle. reflexivity.
  - intros Hev topic body. unfold handle_issue_comment_event, issue_comment_body.
    apply String.eqb_neq in Hev. rewrite Hev. split.
    + intro H. open_bind H as bt. destruct bt as [b ty]. rename E into Hb.
      open_bind H as repo. rename E into Hrepo.
      open_bind H as id. rename E into Hid.
      open_bind H as title. rename E into Htitle.
      injection H as <- <-.
      open_bind Hb as b'. injection Hb as <- <-.
      exists b', repo, id, title. auto 10.
    + intros (b & repo & id & title & Hb & Hrepo & Hid & Htitle & -> & ->).
      rewrite Hb. cbn [bind]. rewrite Hrepo. cbn [bind]. rewrite Hid. cbn [bind].
      rewrite Htitle. reflexivity.
  - intros e H. unfold handle_pull_request_event. rewrite H. reflexivity.
  - intros e H. unfold handle_issues_event. rewrite H. reflexivity.
  - intros Hev e H. unfold handle_issue_comment_event, issue_comment_body.
    apply String.eqb_neq in Hev. rewrite Hev, H. reflexivity.
Qed.

Lemma handlers_pass_topic_override_flag_witness :
  handle_issues_event Sample.git
    (Sample.helper (sample_issues "opened" JNull) None (Some "notifications")
                   "default_event_type")
  = Ok (Some "try-git / issue #3 Test issue",
        Some "kostekIV opened [issue #3 Test issue](http://localhost:3000/john/try-git/issues/3): Test body")
  /\ handle_issues_event Sample.git
       (Sample.helper (sample_issues "opened" JNull) None None "default_event_type")
     = Ok (Some "try-git / issue #3 Test issue",
           Some "kostekIV opened [issue #3](http://localhost:3000/john/try-git/issues/3): Test body")
  /\ handle_pull_request_event Sample.git
       (Sample.helper (Sample.pull_request (JStr "opened") false JNull) None
                      (Some "notifications") "default_event_type")
     = Ok (Some "try-git / PR #1349 Title Text for Pull Request",
           Some "john opened [PR #1 Title Text for Pull Request](http://localhost:3000/john/try-git/pulls/1) from feature to master")
  /\ handle_pull_request_event Sample.git
       (Sample.helper (Sample.pull_request (JStr "opened") false JNull) None None
                      "default_event_type")
     = Ok (Some "try-git / PR #1349 Title Text for Pull Request",
           Some "john opened [PR #1](http://localhost:3000/john/try-git/pulls/1) from feature to master")
  /\ handle_issue_comment_event Sample.git
       (Sample.helper (Sample.issue_comment "edited") None (Some "notifications")
                      "default_event_type")
     = Ok (Some "try-git / issue #3 Test issue",
           Some "kostekIV edited a [comment](http://localhost:3000/john/try-git/issues/3#issuecomment-3) on [issue #3 Test issue](http://localhost:3000/john/try-git/issues/3): Test comment")
  /\ handle_issue_comment_event Sample.git
       (Sample.helper (Sample.issue_comment "edited") None None "default_event_type")
     = Ok (Some "try-git / issue #3 Test issue",
           Some "kostekIV edited a [comment](http://localhost:3000/john/try-git/issues/3#issuecomment-3) on [issue #3](http://localhost:3000/john/try-git/issues/3): Test comment").
Proof.
  repeat apply conj.
  - apply (proj1 (proj2 (proj2 (handlers_pass_topic_override_flag Sample.git _)))).
    eexists. exists 3, "Test issue". repeat apply conj; reflexivity.
  - apply (proj1 (proj2 (proj2 (handlers_pass_topic_override_flag Sample.git _)))).
    eexists. exists 3, "Test issue". repeat apply conj; reflexivity.
  - apply (proj1 (proj2 (handlers_pass_topic_override_flag Sample.git _))).
    eexists. exists 1349, "Title Text for Pull Request". repeat apply conj; reflexivity.
  - apply (proj1 (proj2 (handlers_pass_topic_override_flag Sample.git _))).
    eexists. exists 1349, "Title Text for Pull Request". repeat apply conj; reflexivity.
  - apply (proj1 (proj2 (proj2 (proj2 (handlers_pass_topic_override_flag Sample.git _))))).
    + discriminate.
    + eexists. exists "try-git", 3, "Test issue". repeat apply conj; reflexivity.
  - apply (proj1 (proj2 (proj2 (proj2 (handlers_pass_topic_override_flag Sample.git _))))).
    + discriminate.
    + eexists. exists "try-git", 3, "Test issue". repeat apply conj; reflexivity.
Defined.

(** ** The repository name of the context *)


